(** * rp_handler.py: the ComfyUI worker's invocation handler

    A shallow embedding of [src/rp_handler.py] (the serverless worker that
    submits a workflow to a local ComfyUI engine, polls its history and
    returns the produced images), and the properties of the handler that
    the specification states.

    Python values are decoded JSON values; Python exceptions are an error
    result; the calls that leave the process (HTTP, file system, the
    validator, base64) are answered by a [World]; every such call is
    recorded in a trace of effects.  The [while True] polling loop is
    bounded by a fuel argument, and an exhausted fuel is the outcome
    [Spin]: the loop is still running. *)

From Stdlib Require Import List String Ascii ZArith Bool Lia PeanoNat.
Import ListNotations.
Open Scope string_scope.
Open Scope list_scope.
Set Warnings "-register-all".

(* ================================================================== *)
(** ** Python values *)

(** What [json.loads] / [Response.json()] can produce.  A [dict] keeps its
    insertion order, so it is an association list; [int] is unbounded; a
    [float] is kept as its IEEE-754 binary64 bit pattern. *)
Inductive json : Type :=
| JNull
| JBool (b : bool)
| JInt (z : Z)
| JFloat (bits : Z)
| JStr (s : string)
| JList (l : list json)
| JObj (items : list (string * json)).

Definition bytes := list Byte.byte.

(** The exceptions the handler can meet.  [TypeError], [AttributeError]
    and [IndexError] are raised by the interpreter; [LibraryError] stands
    for what [requests], [json], [base64] and [os] raise and carries
    [str(e)]. *)
Inductive exn : Type :=
| KeyError (key : json)
| IndexError
| TypeError
| AttributeError
| RuntimeError (msg : string)
| LibraryError (msg : string).

Inductive result (A : Type) : Type :=
| Ok (a : A)
| Err (e : exn).
Arguments Ok {A} a.
Arguments Err {A} e.

(** [d[k]] on the items of a dict: the first binding of [k]. *)
Fixpoint assoc (k : string) (items : list (string * json)) : option json :=
  match items with
  | [] => None
  | (k', v) :: rest => if String.eqb k k' then Some v else assoc k rest
  end.

(** [d[k] = v] on the items of a dict: an existing key keeps its place,
    a new key goes last. *)
Fixpoint assoc_set (k : string) (v : json) (items : list (string * json))
  : list (string * json) :=
  match items with
  | [] => [(k, v)]
  | (k', v') :: rest =>
      if String.eqb k k' then (k', v) :: rest else (k', v') :: assoc_set k v rest
  end.

(** Strings hold UTF-8; Python counts and indexes code points. *)
Definition is_continuation (c : ascii) : bool :=
  let n := nat_of_ascii c in (128 <=? n)%nat && (n <? 192)%nat.

Fixpoint utf8_split (s : string) : string * list string :=
  match s with
  | EmptyString => (EmptyString, [])
  | String c rest =>
      let '(pending, chars) := utf8_split rest in
      if is_continuation c then (String c pending, chars)
      else (EmptyString, String c pending :: chars)
  end.

Definition utf8_chars (s : string) : list string := snd (utf8_split s).

(** [bool(v)]: a float is false exactly when it is [0.0] or [-0.0]. *)
Definition py_truthy (v : json) : bool :=
  match v with
  | JNull => false
  | JBool b => b
  | JInt z => negb (z =? 0)%Z
  | JFloat bits => negb ((bits mod 2 ^ 63) =? 0)%Z
  | JStr s => negb (String.eqb s "")
  | JList l => match l with [] => false | _ => true end
  | JObj items => match items with [] => false | _ => true end
  end.

(** [len(v)] *)
Definition py_len (v : json) : result nat :=
  match v with
  | JStr s => Ok (List.length (utf8_chars s))
  | JList l => Ok (List.length l)
  | JObj items => Ok (List.length items)
  | _ => Err TypeError
  end.

(** [l[i]] on a sequence: a negative index counts from the end. *)
Definition seq_index {A : Type} (l : list A) (i : Z) : option A :=
  let n := Z.of_nat (List.length l) in
  let j := if (i <? 0)%Z then (i + n)%Z else i in
  if (0 <=? j)%Z && (j <? n)%Z then nth_error l (Z.to_nat j) else None.

Definition as_index (k : json) : option Z :=
  match k with
  | JInt z => Some z
  | JBool b => Some (if b then 1%Z else 0%Z)
  | _ => None
  end.

(** [c[k]].  A decoded dict has only string keys, so any other hashable
    key is missing from it; a list or dict key is unhashable. *)
Definition py_getitem (c k : json) : result json :=
  match c with
  | JObj items =>
      match k with
      | JStr s => match assoc s items with Some v => Ok v | None => Err (KeyError k) end
      | JList _ | JObj _ => Err TypeError
      | _ => Err (KeyError k)
      end
  | JList l =>
      match as_index k with
      | Some i => match seq_index l i with Some v => Ok v | None => Err IndexError end
      | None => Err TypeError
      end
  | JStr s =>
      match as_index k with
      | Some i =>
          match seq_index (utf8_chars s) i with
          | Some ch => Ok (JStr ch)
          | None => Err IndexError
          end
      | None => Err TypeError
      end
  | _ => Err TypeError
  end.

Definition is_substring (needle hay : string) : bool :=
  match String.index 0 needle hay with Some _ => true | None => false end.

(** [needle in c] for a string [needle]: key membership in a dict, element
    membership in a list, substring test in a string. *)
Definition py_contains (needle : string) (c : json) : result bool :=
  match c with
  | JObj items => Ok (match assoc needle items with Some _ => true | None => false end)
  | JList l =>
      Ok (existsb (fun x => match x with JStr s => String.eqb s needle | _ => false end) l)
  | JStr s => Ok (is_substring needle s)
  | _ => Err TypeError
  end.

(** [c.get(k, default)]: only a dict has [get]. *)
Definition py_get (c : json) (k : string) (default : json) : result json :=
  match c with
  | JObj items => Ok (match assoc k items with Some v => v | None => default end)
  | _ => Err AttributeError
  end.

(** [c.items()] *)
Definition py_items (c : json) : result (list (string * json)) :=
  match c with
  | JObj items => Ok items
  | _ => Err AttributeError
  end.

(** [c[k] = v] for a string key [k]. *)
Definition py_setitem (c : json) (k : string) (v : json) : result json :=
  match c with
  | JObj items => Ok (JObj (assoc_set k v items))
  | _ => Err TypeError
  end.

Definition lower_ascii (c : ascii) : ascii :=
  let n := nat_of_ascii c in
  if (65 <=? n)%nat && (n <=? 90)%nat then ascii_of_nat (n + 32) else c.

Fixpoint lower (s : string) : string :=
  match s with
  | EmptyString => EmptyString
  | String c rest => String (lower_ascii c) (lower rest)
  end.

(** [v.lower()]: only a str has [lower].  The only letters that matter below
    are those of ["loadimage"], and no character outside ASCII lower-cases
    to a run of them, so lower-casing the ASCII letters decides the prefix
    test as Python does. *)
Definition py_lower (v : json) : result string :=
  match v with
  | JStr s => Ok (lower s)
  | _ => Err AttributeError
  end.

Definition is_str (v : json) : bool :=
  match v with JStr _ => true | _ => false end.

Definition is_list (v : json) : bool :=
  match v with JList _ => true | _ => false end.

Definition is_dict (v : json) : bool :=
  match v with JObj _ => true | _ => false end.

(* ================================================================== *)
(** ** The world outside the process *)

(** A [requests] response: its status code and what [.json()] gives
    (an error when the body does not decode). *)
Record response : Type := {
  status_code : Z;
  body_json : result json
}.

(** Everything the handler asks of its surroundings.  [session_get url i]
    answers the [i]-th GET of the invocation (counted from 0); a request
    answers with [Err] when [requests] raises (connection failure, timeout,
    retries exhausted).  [validate] is runpod's [validate] applied to the
    repository's [INPUT_SCHEMA], which is not part of the sources read
    here.  [py_repr] is [repr] on decoded values and [fault_text] the text
    the interpreter gives its own exceptions. *)
Record World : Type := {
  validate : json -> result json;
  b64decode : string -> result bytes;
  b64encode : bytes -> string;
  os_makedirs : string -> result unit;
  open_wb : string -> result unit;
  file_write : string -> bytes -> result unit;
  read_rb : string -> result bytes;
  session_post : string -> json -> result response;
  session_get : string -> nat -> result response;
  py_repr : json -> string;
  fault_text : exn -> string
}.

(** What the handler does to the world, in order.  [Sleep] is in
    milliseconds: [time.sleep(0.2)] is [Sleep 200].  Logging is left out. *)
Inductive effect : Type :=
| Makedirs (dir : string)
| OpenWrite (path : string)
| WriteBytes (path : string) (data : bytes)
| ReadFile (path : string)
| HttpPost (url : string) (payload : json)
| HttpGet (url : string)
| Sleep (ms : Z).

(** [str(v)] as an f-string formats it; [str(e)] for an exception. *)
Definition py_str (w : World) (v : json) : string :=
  match v with
  | JStr s => s
  | _ => py_repr w v
  end.

Definition str_exn (w : World) (e : exn) : string :=
  match e with
  | KeyError k => py_repr w k
  | RuntimeError msg => msg
  | LibraryError msg => msg
  | _ => fault_text w e
  end.

(* ================================================================== *)
(** ** Computations: a trace of effects and an outcome *)

Inductive outcome (A : Type) : Type :=
| Ret (a : A)
| Raise (e : exn)
| Spin.
Arguments Ret {A} a.
Arguments Raise {A} e.
Arguments Spin {A}.

Definition M (A : Type) : Type := (list effect * outcome A)%type.

Definition ret {A : Type} (a : A) : M A := ([], Ret a).

Definition raise {A : Type} (e : exn) : M A := ([], Raise e).

Definition bind {A B : Type} (m : M A) (k : A -> M B) : M B :=
  match m with
  | (t, Ret a) => let (t', o) := k a in (t ++ t', o)
  | (t, Raise e) => (t, Raise e)
  | (t, Spin) => (t, Spin)
  end.

Definition lift {A : Type} (r : result A) : M A :=
  match r with
  | Ok a => ret a
  | Err e => raise e
  end.

(** Perform [ev], whose answer is [r]. *)
Definition perform {A : Type} (ev : effect) (r : result A) : M A :=
  ([ev], match r with Ok a => Ret a | Err e => Raise e end).

(** [try: m  except Exception as e: h e] *)
Definition catch {A : Type} (m : M A) (h : exn -> M A) : M A :=
  match m with
  | (t, Raise e) => let (t', o) := h e in (t ++ t', o)
  | _ => m
  end.

Notation "x <- m ;; k" := (bind m (fun x => k))
  (at level 61, m at next level, right associativity).
Notation "m ;;; k" := (bind m (fun _ => k))
  (at level 61, right associativity).

Definition rbind {A B : Type} (r : result A) (k : A -> result B) : result B :=
  match r with
  | Ok a => k a
  | Err e => Err e
  end.

Notation "'let?' x := r 'in' k" := (rbind r (fun x => k))
  (at level 61, x name, r at next level, right associativity).

(* ================================================================== *)
(** ** rp_handler.py *)

Definition BASE_URI : string := "http://127.0.0.1:3000".
Definition VOLUME_MOUNT_PATH : string := "/runpod-volume".

(** [f'{BASE_URI}/{endpoint}'] *)
Definition url_of (endpoint : string) : string :=
  (BASE_URI ++ "/" ++ endpoint)%string.

(** [send_get_request(endpoint)]; [i] is the number of GETs made before. *)
Definition send_get_request (w : World) (endpoint : string) (i : nat) : M response :=
  perform (HttpGet (url_of endpoint)) (session_get w (url_of endpoint) i).

(** [send_post_request(endpoint, payload)] *)
Definition send_post_request (w : World) (endpoint : string) (payload : json)
  : M response :=
  perform (HttpPost (url_of endpoint) payload)
          (session_post w (url_of endpoint) payload).

(** The [for key, value in output.items()] loop of [get_filenames]. *)
Fixpoint first_images (entries : list (string * json)) : result (list json) :=
  match entries with
  | [] => Ok []
  | (key, value) :: rest =>
      let? has_images := py_contains "images" value in
      if has_images then
        let? images := py_getitem value (JStr "images") in
        match images with
        | JList filenames => Ok filenames
        | _ => first_images rest
        end
      else first_images rest
  end.

(** [get_filenames(output)] *)
Definition get_filenames (output : json) : result (list json) :=
  let? entries := py_items output in
  first_images entries.

Fixpoint ends_with_slash (s : string) : bool :=
  match s with
  | EmptyString => false
  | String c EmptyString => Ascii.eqb c "/"
  | String _ rest => ends_with_slash rest
  end.

(** [os.path.join(a, b)] on POSIX. *)
Definition path_join (a b : string) : string :=
  if String.prefix "/" b then b
  else if String.eqb a "" || ends_with_slash a then (a ++ b)%string
  else (a ++ "/" ++ b)%string.

(** [save_init_image(base64_str, filename)]: the file is opened before
    the string is decoded. *)
Definition save_init_image (w : World) (base64_str filename : string) : M string :=
  let input_dir := (VOLUME_MOUNT_PATH ++ "/ComfyUI/input")%string in
  perform (Makedirs input_dir) (os_makedirs w input_dir) ;;;
  let image_path := path_join input_dir filename in
  perform (OpenWrite image_path) (open_wb w image_path) ;;;
  data <- lift (b64decode w base64_str) ;;
  perform (WriteBytes image_path data) (file_write w image_path data) ;;;
  ret image_path.

(** [node["inputs"]["image"] = image_path] changes the inputs dict in place;
    seen from the node, its ["inputs"] entry now holds the changed dict.
    A decoded workflow is a tree: no two nodes share an inputs dict, so no
    other node sees the change. *)
Definition with_inputs (node inputs' : json) : json :=
  match node with
  | JObj fields => JObj (assoc_set "inputs" inputs' fields)
  | _ => node
  end.

(** [node.get("class_type", "").lower().startswith("loadimage")] *)
Definition is_loadimage (node : json) : result bool :=
  let? class_type := py_get node "class_type" (JStr "") in
  let? lowered := py_lower class_type in
  Ok (String.prefix "loadimage" lowered).

(** The [for node_id, node in workflow.items()] loop of the handler, with
    its [break]: the nodes after the loop. *)
Fixpoint patch_first_loadimage (image_path : string) (nodes : list (string * json))
  : result (list (string * json)) :=
  match nodes with
  | [] => Ok []
  | (node_id, node) :: rest =>
      let? found := is_loadimage node in
      if found then
        let? inputs := py_getitem node (JStr "inputs") in
        let? inputs' := py_setitem inputs "image" (JStr image_path) in
        Ok ((node_id, with_inputs node inputs') :: rest)
      else
        let? rest' := patch_first_loadimage image_path rest in
        Ok ((node_id, node) :: rest')
  end.

(** Lines 96-103, "Handle optional init_image": the workflow afterwards. *)
Definition apply_init_image (w : World) (payload workflow : json) : M json :=
  has_init <- lift (py_contains "init_image" payload) ;;
  if has_init then
    init_image <- lift (py_getitem payload (JStr "init_image")) ;;
    match init_image with
    | JStr base64_str =>
        image_path <- save_init_image w base64_str "init.png" ;;
        nodes <- lift (py_items workflow) ;;
        nodes' <- lift (patch_first_loadimage image_path nodes) ;;
        ret (JObj nodes')
    | _ => ret workflow
    end
  else ret workflow.

(** [r.status_code == 200 and len(resp_json)], as the [if] reads it. *)
Definition history_ready (r : response) (resp_json : json) : result bool :=
  if (status_code r =? 200)%Z then
    let? n := py_len resp_json in Ok (negb (n =? 0)%nat)
  else Ok false.

(** [f'history/{prompt_id}'] *)
Definition history_endpoint (w : World) (prompt_id : json) : string :=
  ("history/" ++ py_str w prompt_id)%string.

(** Lines 122-127, "Poll until results are ready": at most [fuel]
    iterations of the [while True] loop, the first one being the [i]-th GET. *)
Fixpoint poll_history (w : World) (prompt_id : json) (fuel i : nat) : M json :=
  match fuel with
  | O => ([], Spin)
  | S fuel' =>
      r <- send_get_request w (history_endpoint w prompt_id) i ;;
      resp_json <- lift (body_json r) ;;
      ready <- lift (history_ready r resp_json) ;;
      if ready then ret resp_json
      else perform (Sleep 200) (Ok tt) ;;; poll_history w prompt_id fuel' (S i)
  end.

(** Lines 135-140: read and encode each reported file. *)
Fixpoint read_images (w : World) (image_filenames : list json) : M (list json) :=
  match image_filenames with
  | [] => ret []
  | image_filename :: rest =>
      filename <- lift (py_getitem image_filename (JStr "filename")) ;;
      let image_path :=
        (VOLUME_MOUNT_PATH ++ "/ComfyUI/output/" ++ py_str w filename)%string in
      data <- perform (ReadFile image_path) (read_rb w image_path) ;;
      images <- read_images w rest ;;
      ret (JStr (b64encode w data) :: images)
  end.

Definition NO_OUTPUT : string :=
  "No output found, check model and workflow validity".

(** Lines 129-142: what the handler does with the body that ended the
    polling loop. *)
Definition collect_images (w : World) (prompt_id resp_json : json) : M json :=
  entry <- lift (py_getitem resp_json prompt_id) ;;
  outputs <- lift (py_getitem entry (JStr "outputs")) ;;
  if negb (py_truthy outputs) then raise (RuntimeError NO_OUTPUT)
  else
    image_filenames <- lift (get_filenames outputs) ;;
    images <- read_images w image_filenames ;;
    ret (JObj [("images", JList images)]).

(** Lines 105-142: queue the workflow, poll, collect. *)
Definition run_workflow (w : World) (fuel : nat) (workflow : json) : M json :=
  queue_response <- send_post_request w "prompt" (JObj [("prompt", workflow)]) ;;
  resp_json <- lift (body_json queue_response) ;;
  if negb (status_code queue_response =? 200)%Z then ret resp_json
  else
    prompt_id <- lift (py_get resp_json "prompt_id" JNull) ;;
    if negb (py_truthy prompt_id) then
      ret (JObj [("error", JStr "No prompt_id returned by ComfyUI")])
    else
      resp_json <- poll_history w prompt_id fuel 0 ;;
      collect_images w prompt_id resp_json.

(** The body of the handler's [try] (lines 81-142). *)
Definition handler_body (w : World) (fuel : nat) (event : json) : M json :=
  raw_input <- lift (py_getitem event (JStr "input")) ;;
  validated_input <- lift (validate w raw_input) ;;
  has_errors <- lift (py_contains "errors" validated_input) ;;
  if has_errors then
    errors <- lift (py_getitem validated_input (JStr "errors")) ;;
    ret (JObj [("error", errors)])
  else
    payload <- lift (py_getitem validated_input (JStr "validated_input")) ;;
    has_workflow <- lift (py_contains "workflow" payload) ;;
    if negb has_workflow then
      ret (JObj [("error", JStr "Missing workflow in payload")])
    else
      workflow <- lift (py_getitem payload (JStr "workflow")) ;;
      workflow' <- apply_init_image w payload workflow ;;
      run_workflow w fuel workflow'.

(** [handler(event)]: the [try] with its [except Exception]. *)
Definition handler (w : World) (fuel : nat) (event : json) : M json :=
  catch (handler_body w fuel event)
        (fun e => ret (JObj [("error", JStr (str_exn w e))])).

(* ================================================================== *)
(** ** Reading a trace *)

(** The payloads posted to the engine, in order. *)
Fixpoint submitted (t : list effect) : list json :=
  match t with
  | [] => []
  | HttpPost _ payload :: rest => payload :: submitted rest
  | _ :: rest => submitted rest
  end.

(** The URLs fetched from the engine, in order. *)
Fixpoint fetched (t : list effect) : list string :=
  match t with
  | [] => []
  | HttpGet url :: rest => url :: fetched rest
  | _ :: rest => fetched rest
  end.

Definition is_http (ev : effect) : bool :=
  match ev with
  | HttpPost _ _ | HttpGet _ => true
  | _ => false
  end.

Definition touches_input_dir (ev : effect) : bool :=
  match ev with
  | Makedirs _ | OpenWrite _ | WriteBytes _ _ => true
  | _ => false
  end.

Definition is_post (ev : effect) : bool :=
  match ev with HttpPost _ _ => true | _ => false end.

Definition is_get (ev : effect) : bool :=
  match ev with HttpGet _ => true | _ => false end.

Definition is_poll_effect (ev : effect) : bool :=
  match ev with HttpGet _ | Sleep _ => true | _ => false end.

Definition is_read (ev : effect) : bool :=
  match ev with ReadFile _ => true | _ => false end.

Definition http_calls (t : list effect) : list effect := filter is_http t.

Definition file_writes (t : list effect) : list effect := filter touches_input_dir t.

(** The shapes of a result. *)
Definition is_images_payload (v : json) : bool :=
  match v with
  | JObj [(k, JList _)] => String.eqb k "images"
  | _ => false
  end.

Definition is_error_payload (v : json) : bool :=
  match v with
  | JObj [(k, _)] => String.eqb k "error"
  | _ => false
  end.

(** [v] is the decoded body of a non-200 answer to a submission made
    in [t]. *)
Definition relayed_rejection (w : World) (t : list effect) (v : json) : Prop :=
  exists url payload r,
    In (HttpPost url payload) t /\
    session_post w url payload = Ok r /\
    status_code r <> 200%Z /\
    body_json r = Ok v.

(** The job identifier a submission answer carries:
    [resp_json.get('prompt_id')] when the body decodes to a dict that holds
    a truthy one. *)
Definition job_identifier (r : response) : option json :=
  match body_json r with
  | Ok resp_json =>
      match py_get resp_json "prompt_id" JNull with
      | Ok prompt_id => if py_truthy prompt_id then Some prompt_id else None
      | Err _ => None
      end
  | Err _ => None
  end.

(** One answer of the history endpoint keeps the loop going: it arrived,
    it decoded, and the loop's test was evaluated to false. *)
Definition loop_continues (a : result response) : bool :=
  match a with
  | Ok r =>
      match body_json r with
      | Ok resp_json =>
          match history_ready r resp_json with
          | Ok ready => negb ready
          | Err _ => false
          end
      | Err _ => false
      end
  | Err _ => false
  end.

(** One answer of the history endpoint carries an empty body
    ([{}], [[]] or [""]), whatever its status. *)
Definition empty_body (a : result response) : bool :=
  match a with
  | Ok r =>
      match body_json r with
      | Ok resp_json =>
          match py_len resp_json with
          | Ok O => true
          | _ => false
          end
      | Err _ => false
      end
  | Err _ => false
  end.

(** The trace of [n] unsuccessful polls of [url] followed by one more GET. *)
Fixpoint polling_trace (url : string) (n : nat) : list effect :=
  match n with
  | O => [HttpGet url]
  | S n' => HttpGet url :: Sleep 200 :: polling_trace url n'
  end.

(** The trace of [n] unsuccessful polls of [url], each followed by its sleep. *)
Fixpoint waiting_trace (url : string) (n : nat) : list effect :=
  match n with
  | O => []
  | S n' => HttpGet url :: Sleep 200 :: waiting_trace url n'
  end.

(** The steps of the handler before it looks for the workflow went through
    and gave [payload] (lines 81-86). *)
Definition validated_payload (w : World) (event payload : json) : Prop :=
  exists raw_input validated_input,
    py_getitem event (JStr "input") = Ok raw_input /\
    validate w raw_input = Ok validated_input /\
    py_contains "errors" validated_input = Ok false /\
    py_getitem validated_input (JStr "validated_input") = Ok payload.

(** A valid input: validation went through and the payload has the
    workflow [workflow] (lines 81-92). *)
Definition valid_input (w : World) (event payload workflow : json) : Prop :=
  validated_payload w event payload /\
  py_contains "workflow" payload = Ok true /\
  py_getitem payload (JStr "workflow") = Ok workflow.

(** The character [c] is the letter [p] in either case; [p] is a
    lower-case letter. *)
Definition same_letter (p c : ascii) : bool :=
  Ascii.eqb c p || (nat_of_ascii c + 32 =? nat_of_ascii p)%nat.

(** [s] starts with [pattern], a word of lower-case letters, whatever
    the case of the letters of [s]. *)
Fixpoint starts_with_ignoring_case (pattern s : string) : bool :=
  match pattern, s with
  | EmptyString, _ => true
  | String _ _, EmptyString => false
  | String p pattern', String c s' =>
      same_letter p c && starts_with_ignoring_case pattern' s'
  end.

Fixpoint lower_case_word (s : string) : bool :=
  match s with
  | EmptyString => true
  | String c rest =>
      (97 <=? nat_of_ascii c)%nat && (nat_of_ascii c <=? 122)%nat && lower_case_word rest
  end.

(** The node has a [class_type] that case-insensitively starts with
    "loadimage".  Read off the node's fields, apart from the test the
    handler makes. *)
Definition names_loadimage (node : json) : bool :=
  match node with
  | JObj fields =>
      match assoc "class_type" fields with
      | Some (JStr class_type) => starts_with_ignoring_case "loadimage" class_type
      | _ => false
      end
  | _ => false
  end.

(** A graph node of the data model: a mapping whose [class_type], when it
    has one, is a string, and whose [inputs] is a mapping. *)
Definition graph_node (node : json) : bool :=
  match node with
  | JObj fields =>
      match assoc "class_type" fields with
      | None | Some (JStr _) => true
      | _ => false
      end
      && match assoc "inputs" fields with
         | Some (JObj _) => true
         | _ => false
         end
  | _ => false
  end.

(** The node with its [inputs.image] set to [image_path] and nothing else
    changed, written out on the node's fields. *)
Definition with_image (image_path : string) (node : json) : json :=
  match node with
  | JObj fields =>
      match assoc "inputs" fields with
      | Some (JObj inputs) =>
          JObj (assoc_set "inputs"
                          (JObj (assoc_set "image" (JStr image_path) inputs))
                          fields)
      | _ => node
      end
  | _ => node
  end.

(** The node after [node["inputs"]["image"] = image_path]. *)
Definition set_image (image_path : string) (node : json) : json :=
  match py_getitem node (JStr "inputs") with
  | Ok (JObj inputs) =>
      with_inputs node (JObj (assoc_set "image" (JStr image_path) inputs))
  | _ => node
  end.

(** Where [save_init_image] writes. *)
Definition INIT_IMAGE_PATH : string := "/runpod-volume/ComfyUI/input/init.png".

(** A node output holds a list under [images]. *)
Definition has_images_list (value : json) : bool :=
  match value with
  | JObj fields =>
      match assoc "images" fields with
      | Some (JList _) => true
      | _ => false
      end
  | _ => false
  end.

(** A node output holds a non-empty list under [images]. *)
Definition has_nonempty_images (value : json) : bool :=
  match value with
  | JObj fields =>
      match assoc "images" fields with
      | Some (JList (_ :: _)) => true
      | _ => false
      end
  | _ => false
  end.

(** The extractor as section 4.5 of the specification words it: the
    [images] list of the first entry that contains a non-empty [images]
    sequence, the empty sequence when there is none.  Not taken from the
    source; it is what [get_filenames] is compared with. *)
Fixpoint spec_extract_filenames (entries : list (string * json)) : list json :=
  match entries with
  | [] => []
  | (_, JObj fields) :: rest =>
      match assoc "images" fields with
      | Some (JList (x :: l)) => x :: l
      | _ => spec_extract_filenames rest
      end
  | _ :: rest => spec_extract_filenames rest
  end.

(* ================================================================== *)
(** ** Worlds and inputs for the examples *)

Definition PNG_MAGIC : bytes := [Byte.x89; Byte.x50; Byte.x4e; Byte.x47].

(** [repr] on the values the examples print: strings without quotes or
    escapes, [None] and the booleans. *)
Definition example_repr (v : json) : string :=
  match v with
  | JStr s => ("'" ++ s ++ "'")%string
  | JNull => "None"
  | JBool true => "True"
  | JBool false => "False"
  | _ => "<object>"
  end.

(** A world whose validator accepts every input as it is, whose volume
    holds [out.png], and whose engine answers a submission with
    [post_answer] and the [i]-th history request with [history i]. *)
Definition example_world (post_answer : result response)
                         (history : nat -> result response) : World :=
  {| validate := fun raw_input => Ok (JObj [("validated_input", raw_input)]);
     b64decode := fun s =>
       if String.eqb s "iVBORw==" then Ok PNG_MAGIC
       else Err (LibraryError "Incorrect padding");
     b64encode := fun _ => "iVBORw==";
     os_makedirs := fun _ => Ok tt;
     open_wb := fun _ => Ok tt;
     file_write := fun _ _ => Ok tt;
     read_rb := fun path =>
       if String.eqb path "/runpod-volume/ComfyUI/output/out.png" then Ok PNG_MAGIC
       else Err (LibraryError "[Errno 2] No such file or directory");
     session_post := fun _ _ => post_answer;
     session_get := fun _ i => history i;
     py_repr := example_repr;
     fault_text := fun _ => "unsupported operation" |}.

Definition answer (status : Z) (body : json) : result response :=
  Ok {| status_code := status; body_json := Ok body |}.

Definition queued_abc : result response :=
  answer 200 (JObj [("prompt_id", JStr "abc")]).

Definition history_abc (outputs : json) : json :=
  JObj [("abc", JObj [("outputs", outputs)])].

Definition out_png_outputs : json :=
  JObj [("9", JObj [("images", JList [JObj [("filename", JStr "out.png")]])])].

(** The engine answers [{}] twice, then the populated history. *)
Definition history_after_two (i : nat) : result response :=
  if (i <? 2)%nat then answer 200 (JObj []) else answer 200 (history_abc out_png_outputs).

Definition ksampler_workflow : json :=
  JObj [("1", JObj [("class_type", JStr "KSampler"); ("inputs", JObj [])])].

Definition two_loaders_nodes : list (string * json) :=
  [("1", JObj [("class_type", JStr "KSampler"); ("inputs", JObj [])]);
   ("2", JObj [("class_type", JStr "LoadImage");
               ("inputs", JObj [("image", JStr "a.png")])]);
   ("3", JObj [("class_type", JStr "LoadImageMask");
               ("inputs", JObj [("image", JStr "b.png")])])].

Definition two_loaders_workflow : json := JObj two_loaders_nodes.

Definition event_of (raw_input : json) : json := JObj [("input", raw_input)].

Definition plain_event : json :=
  event_of (JObj [("workflow", ksampler_workflow)]).

Definition null_image_event : json :=
  event_of (JObj [("workflow", two_loaders_workflow); ("init_image", JNull)]).

Definition image_event (workflow : json) : json :=
  event_of (JObj [("workflow", workflow); ("init_image", JStr "iVBORw==")]).

Definition ready_world : World := example_world queued_abc history_after_two.

(** Outputs whose first entry holds an empty [images] list. *)
Definition empty_then_full_outputs : list (string * json) :=
  [("8", JObj [("images", JList [])]);
   ("9", JObj [("images", JList [JObj [("filename", JStr "out.png")]])])].

(** Outputs whose first entry holds no [images] at all. *)
Definition text_then_image_outputs : list (string * json) :=
  [("7", JObj [("text", JList [JStr "done"])]);
   ("9", JObj [("images", JList [JObj [("filename", JStr "out.png")]])])].

(** The engine rejects the submission: 500, [{detail: "bad node"}]. *)
Definition bad_node_world : World :=
  example_world (answer 500 (JObj [("detail", JStr "bad node")])) history_after_two.

(** The engine accepts the submission but names no job. *)
Definition no_identifier_world : World :=
  example_world (answer 200 (JObj [("prompt_id", JStr "")])) history_after_two.

(** The history entry of the job holds empty [outputs]. *)
Definition empty_outputs_world : World :=
  example_world queued_abc (fun _ => answer 200 (history_abc (JObj []))).

(** The history entry of the job holds no [outputs] key. *)
Definition absent_outputs_world : World :=
  example_world queued_abc (fun _ => answer 200 (JObj [("abc", JObj [])])).

(* ================================================================== *)
(** ** The readiness prober *)

(** How one [requests.get(url)] of the prober ends: with a response, of
    whatever status; with a [requests.exceptions.RequestException]; or
    with another [Exception], whose [str(err)] is [text]. *)
Inductive probe_answer : Type :=
| Responded (status : Z)
| RequestException
| OtherException (text : string).

(** What the prober does, in order; [Nap] is in milliseconds. *)
Inductive startup_effect : Type :=
| Probe (url : string)
| LogInfo (msg : string)
| LogError (msg : string)
| Nap (ms : Z).

Definition NOT_READY : string := "Service not ready yet. Retrying...".

(** The [while True] loop of [wait_for_service] (lines 29-39): at most
    [fuel] iterations, the first one being the [attempt]-th request, with
    the counter at [retries]. *)
Fixpoint wait_loop (probe : nat -> probe_answer) (url : string)
         (fuel attempt retries : nat) : list startup_effect * outcome unit :=
  match fuel with
  | O => ([], Spin)
  | S fuel' =>
      match probe attempt with
      | Responded _ => ([Probe url], Ret tt)
      | RequestException =>
          let retries' := S retries in
          let (t, o) := wait_loop probe url fuel' (S attempt) retries' in
          (Probe url
             :: (if (retries' mod 15 =? 0)%nat then [LogInfo NOT_READY] else [])
             ++ Nap 200 :: t, o)
      | OtherException text =>
          let (t, o) := wait_loop probe url fuel' (S attempt) retries in
          (Probe url :: LogError ("Error: " ++ text)%string :: Nap 200 :: t, o)
      end
  end.

(** [wait_for_service(url)] *)
Definition wait_for_service (probe : nat -> probe_answer) (url : string) (fuel : nat)
  : list startup_effect * outcome unit :=
  wait_loop probe url fuel 0 0.

Definition responded (a : probe_answer) : bool :=
  match a with Responded _ => true | _ => false end.

Definition is_request_exception (a : probe_answer) : bool :=
  match a with RequestException => true | _ => false end.

Definition is_other_exception (a : probe_answer) : bool :=
  match a with OtherException _ => true | _ => false end.

(** How many of the attempts [from], ..., [from + n - 1] satisfy [p]. *)
Fixpoint count_attempts (p : probe_answer -> bool) (probe : nat -> probe_answer)
         (from n : nat) : nat :=
  match n with
  | O => O
  | S n' => (if p (probe from) then 1 else 0) + count_attempts p probe (S from) n'
  end.

Definition is_probe (ev : startup_effect) : bool :=
  match ev with Probe _ => true | _ => false end.

Definition is_nap (ev : startup_effect) : bool :=
  match ev with Nap 200 => true | _ => false end.

Definition is_not_ready_log (ev : startup_effect) : bool :=
  match ev with LogInfo msg => String.eqb msg NOT_READY | _ => false end.

Definition is_error_log (ev : startup_effect) : bool :=
  match ev with LogError _ => true | _ => false end.

Definition count_effects (p : startup_effect -> bool) (t : list startup_effect) : nat :=
  List.length (filter p t).

(** A prober whose first [n] requests fail to connect and whose next one
    is answered with status [status]. *)
Definition up_after (n : nat) (status : Z) (i : nat) : probe_answer :=
  if (i <? n)%nat then RequestException else Responded status.

(* ================================================================== *)
(** ** Reading the reported files *)

(** [f'{VOLUME_MOUNT_PATH}/ComfyUI/output/{filename}'] for one entry of the
    image list (lines 137-138). *)
Definition image_path_of (w : World) (image_filename : json) : result string :=
  let? filename := py_getitem image_filename (JStr "filename") in
  Ok (VOLUME_MOUNT_PATH ++ "/ComfyUI/output/" ++ py_str w filename)%string.

(** An answer of the history endpoint that ends the handler with an
    exception: the request raised, the body did not decode, or the body
    of a 200 answer has no length. *)
Definition loop_aborts (a : result response) : option exn :=
  match a with
  | Err e => Some e
  | Ok r =>
      match body_json r with
      | Err e => Some e
      | Ok resp_json =>
          match history_ready r resp_json with
          | Err e => Some e
          | Ok _ => None
          end
      end
  end.

(* ================================================================== *)
(** ** More worlds for the examples *)

(** The validator reports a missing workflow. *)
Definition rejecting_validator_world : World :=
  {| validate := fun _ =>
       Ok (JObj [("errors", JList [JStr "workflow is a required input."])]);
     b64decode := b64decode ready_world;
     b64encode := b64encode ready_world;
     os_makedirs := os_makedirs ready_world;
     open_wb := open_wb ready_world;
     file_write := file_write ready_world;
     read_rb := read_rb ready_world;
     session_post := session_post ready_world;
     session_get := session_get ready_world;
     py_repr := example_repr;
     fault_text := fault_text ready_world |}.

(** The engine answers the submission with an HTML error page. *)
Definition gateway_error_world : World :=
  example_world
    (Ok {| status_code := 500;
           body_json := Err (LibraryError "Expecting value: line 1 column 1 (char 0)") |})
    history_after_two.

(** The history endpoint answers [{}] once and then [null]. *)
Definition null_history_world : World :=
  example_world queued_abc
                (fun i => if (i <? 1)%nat then answer 200 (JObj []) else answer 200 JNull).

(** An input whose image is cut short. *)
Definition bad_image_event : json :=
  event_of (JObj [("workflow", two_loaders_workflow); ("init_image", JStr "iVBORw")]).

(** A workflow whose LoadImage node has no [inputs]. *)
Definition bare_loader_nodes : list (string * json) :=
  [("1", JObj [("class_type", JStr "KSampler"); ("inputs", JObj [])]);
   ("2", JObj [("class_type", JStr "LoadImage")])].

(** A workflow whose LoadImage node comes first, before two entries that
    are no node records. *)
Definition loader_then_junk_nodes : list (string * json) :=
  [("2", JObj [("class_type", JStr "LOADIMAGE"); ("inputs", JObj [])]);
   ("3", JInt 7);
   ("4", JObj [("class_type", JNull)])].

(** An entry of the outputs on which the scan of [get_filenames] raises
    [TypeError]: ['images' in value] is not defined for it, or it is true
    and [value['images']] is not. *)
Definition breaks_scan (value : json) : bool :=
  match value with
  | JNull | JBool _ | JInt _ | JFloat _ => true
  | JStr s => is_substring "images" s
  | JList l =>
      existsb (fun x => match x with JStr s => String.eqb s "images" | _ => false end) l
  | JObj _ => false
  end.

(* ================================================================== *)
(** ** Laws of the computations *)

Lemma bind_ret {A B : Type} (a : A) (k : A -> M B) : bind (ret a) k = k a.
Proof. unfold bind, ret. destruct (k a); reflexivity. Qed.

Lemma bind_lift_ok {A B : Type} (a : A) (k : A -> M B) : bind (lift (Ok a)) k = k a.
Proof. apply bind_ret. Qed.

Lemma bind_perform_ok {A B : Type} (ev : effect) (a : A) (k : A -> M B) :
  bind (perform ev (Ok a)) k = (ev :: fst (k a), snd (k a)).
Proof. unfold bind, perform. destruct (k a); reflexivity. Qed.

Lemma bind_perform_err {A B : Type} (ev : effect) (e : exn) (k : A -> M B) :
  bind (perform ev (@Err A e)) k = ([ev], Raise e).
Proof. reflexivity. Qed.

Lemma bind_pair {A B : Type} (t : list effect) (a : A) (k : A -> M B) :
  bind (t, Ret a) k = (t ++ fst (k a), snd (k a)).
Proof. unfold bind. destruct (k a); reflexivity. Qed.

Lemma submitted_app (t t' : list effect) :
  submitted (t ++ t') = submitted t ++ submitted t'.
Proof.
  induction t as [| ev t IH]; simpl; [reflexivity |].
  destruct ev; simpl; rewrite IH; reflexivity.
Qed.

Lemma fetched_app (t t' : list effect) :
  fetched (t ++ t') = fetched t ++ fetched t'.
Proof.
  induction t as [| ev t IH]; simpl; [reflexivity |].
  destruct ev; simpl; rewrite IH; reflexivity.
Qed.

(* ================================================================== *)
(** ** The filename extractor *)

Lemma first_images_skip (key : string) (value : json) (rest : list (string * json)) :
  is_dict value = true ->
  has_images_list value = false ->
  first_images ((key, value) :: rest) = first_images rest.
Proof.
  intros Hd Hn. destruct value; try discriminate. simpl in *.
  destruct (assoc "images" items) as [v |]; simpl; [| reflexivity].
  destruct v; try reflexivity. discriminate.
Qed.

Lemma first_images_skip_all (pre rest : list (string * json)) :
  Forall (fun kv => is_dict (snd kv) = true) pre ->
  Forall (fun kv => has_images_list (snd kv) = false) pre ->
  first_images (pre ++ rest) = first_images rest.
Proof.
  induction pre as [| [key value] pre IH]; intros Hd Hn; [reflexivity |].
  inversion Hd; inversion Hn; subst.
  change (((key, value) :: pre) ++ rest) with ((key, value) :: (pre ++ rest)).
  rewrite first_images_skip by assumption. auto.
Qed.

Lemma first_images_hit (key : string) (value : json) (rest : list (string * json))
      (filenames : list json) :
  py_getitem value (JStr "images") = Ok (JList filenames) ->
  is_dict value = true ->
  first_images ((key, value) :: rest) = Ok filenames.
Proof.
  intros Hg Hd. destruct value; try discriminate. simpl in *.
  destruct (assoc "images" items) as [v |]; [| discriminate].
  simpl. injection Hg as ->. reflexivity.
Qed.

Lemma first_images_no_nonempty (entries : list (string * json)) :
  Forall (fun kv => is_dict (snd kv) = true) entries ->
  Forall (fun kv => has_nonempty_images (snd kv) = false) entries ->
  first_images entries = Ok [].
Proof.
  induction entries as [| [key value] rest IH]; intros Hd Hn; [reflexivity |].
  inversion Hd; inversion Hn; subst. simpl in *.
  destruct value; try discriminate. simpl in *.
  destruct (assoc "images" items) as [v |]; simpl; [| auto].
  destruct v; auto. destruct l; [reflexivity | discriminate].
Qed.

(** C3 (as amended): for every outputs mapping whose entries are mappings,
    [get_filenames] returns the [images] list of the first entry, in
    stored order, whose [images] is a list, empty or not; it returns the
    empty list when no entry holds a list under [images], and also when no
    entry holds a non-empty one. *)
Theorem get_filenames_first_images_list (entries : list (string * json)) :
  Forall (fun kv => is_dict (snd kv) = true) entries ->
  (forall pre key value post filenames,
      entries = pre ++ (key, value) :: post ->
      Forall (fun kv => has_images_list (snd kv) = false) pre ->
      py_getitem value (JStr "images") = Ok (JList filenames) ->
      get_filenames (JObj entries) = Ok filenames)
  /\
  (Forall (fun kv => has_images_list (snd kv) = false) entries ->
   get_filenames (JObj entries) = Ok [])
  /\
  (Forall (fun kv => has_nonempty_images (snd kv) = false) entries ->
   get_filenames (JObj entries) = Ok []).
Proof.
  intros Hd. split; [| split].
  - intros pre key value post filenames -> Hpre Hg.
    apply Forall_app in Hd as [Hd1 Hd2]. inversion Hd2; subst.
    unfold get_filenames; simpl.
    rewrite first_images_skip_all by assumption.
    now apply first_images_hit.
  - intros Hn. unfold get_filenames; simpl.
    rewrite <- (app_nil_r entries).
    now rewrite first_images_skip_all.
  - intros Hn. unfold get_filenames; simpl.
    now apply first_images_no_nonempty.
Qed.

(** The extractor on outputs whose first entry has no [images]. *)
Lemma get_filenames_first_images_list_witness :
  get_filenames (JObj text_then_image_outputs) = Ok [JObj [("filename", JStr "out.png")]].
Proof.
  assert (Hd : Forall (fun kv : string * json => is_dict (snd kv) = true)
                      text_then_image_outputs) by (repeat constructor).
  apply (proj1 (get_filenames_first_images_list text_then_image_outputs Hd)
               [("7", JObj [("text", JList [JStr "done"])])]
               "9" (JObj [("images", JList [JObj [("filename", JStr "out.png")]])]) []).
  - reflexivity.
  - repeat constructor.
  - reflexivity.
Defined.

(** C3, as stated, fails: an entry whose [images] is the empty list comes
    first, and [get_filenames] returns that empty list, not the non-empty
    list of the entry after it. *)
Lemma get_filenames_returns_empty_first :
  get_filenames (JObj empty_then_full_outputs) = Ok []
  /\ spec_extract_filenames empty_then_full_outputs
     = [JObj [("filename", JStr "out.png")]].
Proof. split; reflexivity. Qed.

(* ================================================================== *)
(** ** The polling loop *)

Section Polling.

Variable w : World.
Variable prompt_id : json.

Let url : string := url_of (history_endpoint w prompt_id).

Lemma empty_body_continues (a : result response) :
  empty_body a = true -> loop_continues a = true.
Proof.
  unfold empty_body, loop_continues, history_ready.
  destruct a as [r | e]; [| discriminate].
  destruct (body_json r) as [b | e]; [| discriminate].
  destruct (py_len b) as [[| n] | e]; try discriminate.
  intros _. destruct (status_code r =? 200)%Z; reflexivity.
Qed.

Lemma poll_history_S (fuel i : nat) :
  poll_history w prompt_id (S fuel) i
  = (r <- send_get_request w (history_endpoint w prompt_id) i ;;
     resp_json <- lift (body_json r) ;;
     ready <- lift (history_ready r resp_json) ;;
     if ready then ret resp_json
     else perform (Sleep 200) (Ok tt) ;;; poll_history w prompt_id fuel (S i)).
Proof. reflexivity. Qed.

Lemma poll_continue (fuel i : nat) :
  loop_continues (session_get w url i) = true ->
  poll_history w prompt_id (S fuel) i
  = (HttpGet url :: Sleep 200 :: fst (poll_history w prompt_id fuel (S i)),
     snd (poll_history w prompt_id fuel (S i))).
Proof.
  unfold loop_continues. intros H.
  destruct (session_get w url i) as [r | e] eqn:Hg; [| discriminate].
  destruct (body_json r) as [b | e] eqn:Hb; [| discriminate].
  destruct (history_ready r b) as [ready | e] eqn:Hr; [| discriminate].
  destruct ready; [discriminate |].
  rewrite poll_history_S. unfold send_get_request. fold url. rewrite Hg.
  rewrite bind_perform_ok, Hb, bind_lift_ok, Hr, bind_lift_ok, bind_perform_ok.
  reflexivity.
Qed.

Lemma poll_populated (fuel i : nat) (r : response) (b : json) (m : nat) :
  session_get w url i = Ok r ->
  status_code r = 200%Z ->
  body_json r = Ok b ->
  py_len b = Ok (S m) ->
  poll_history w prompt_id (S fuel) i = ([HttpGet url], Ret b).
Proof.
  intros Hg Hs Hb Hl.
  assert (Hr : history_ready r b = Ok true)
    by (unfold history_ready; rewrite Hs, Hl; reflexivity).
  rewrite poll_history_S. unfold send_get_request. fold url. rewrite Hg.
  rewrite bind_perform_ok, Hb, bind_lift_ok, Hr, bind_lift_ok.
  reflexivity.
Qed.

Lemma poll_waits (n fuel i : nat) :
  (forall j, j < n -> loop_continues (session_get w url (i + j)) = true) ->
  poll_history w prompt_id (n + fuel) i
  = (waiting_trace url n ++ fst (poll_history w prompt_id fuel (i + n)),
     snd (poll_history w prompt_id fuel (i + n))).
Proof.
  revert i. induction n as [| n IH]; intros i H.
  - rewrite Nat.add_0_r. simpl. now destruct (poll_history w prompt_id fuel i).
  - change (S n + fuel) with (S (n + fuel)).
    rewrite poll_continue by (specialize (H 0); rewrite Nat.add_0_r in H; apply H; lia).
    rewrite IH.
    + replace (S i + n) with (i + S n) by lia. reflexivity.
    + intros j Hj. replace (S i + j) with (i + S j) by lia. apply H. lia.
Qed.

Lemma waiting_then_get (n : nat) :
  waiting_trace url n ++ [HttpGet url] = polling_trace url n.
Proof. induction n as [| n IH]; simpl; [reflexivity | now rewrite IH]. Qed.

Lemma fetched_polling_trace (n : nat) :
  fetched (polling_trace url n) = repeat url (S n).
Proof. induction n as [| n IH]; simpl; [reflexivity | now rewrite IH]. Qed.

Lemma fetched_waiting_trace (n : nat) :
  fetched (waiting_trace url n) = repeat url n.
Proof. induction n as [| n IH]; simpl; [reflexivity | now rewrite IH]. Qed.

(** How an iteration of the loop can go, read off the answer it gets. *)
Lemma poll_step_cases (fuel i : nat) :
  (loop_continues (session_get w url i) = true)
  \/ (exists e, poll_history w prompt_id (S fuel) i = ([HttpGet url], Raise e))
  \/ (exists r b m, session_get w url i = Ok r /\ status_code r = 200%Z /\
                    body_json r = Ok b /\ py_len b = Ok (S m)).
Proof.
  unfold loop_continues. rewrite poll_history_S. unfold send_get_request. fold url.
  destruct (session_get w url i) as [r | e].
  2:{ right; left. exists e. reflexivity. }
  rewrite bind_perform_ok.
  destruct (body_json r) as [b | e] eqn:Hb.
  2:{ right; left. exists e. reflexivity. }
  rewrite bind_lift_ok. unfold history_ready.
  destruct (status_code r =? 200)%Z eqn:Hs; [| now left].
  destruct (py_len b) as [[| m] | e] eqn:Hl.
  - now left.
  - right; right. exists r, b, m. apply Z.eqb_eq in Hs. auto.
  - right; left. exists e. reflexivity.
Qed.

(** The loop is left normally only through a populated answer, after
    answers that all kept it going. *)
Lemma poll_ret_inv (fuel i : nat) (t : list effect) (b : json) :
  poll_history w prompt_id fuel i = (t, Ret b) ->
  exists n r m,
    n < fuel /\
    (forall j, j < n -> loop_continues (session_get w url (i + j)) = true) /\
    session_get w url (i + n) = Ok r /\ status_code r = 200%Z /\
    body_json r = Ok b /\ py_len b = Ok (S m) /\
    t = polling_trace url n.
Proof.
  revert i t. induction fuel as [| fuel IH]; intros i t H; [discriminate |].
  destruct (poll_step_cases fuel i) as [Hc | [[e He] | (r & b' & m & Hg & Hs & Hb & Hl)]].
  - rewrite poll_continue in H by assumption.
    destruct (poll_history w prompt_id fuel (S i)) as [t' o] eqn:Hp.
    simpl in H. injection H as <- ->.
    destruct (IH _ _ Hp) as (n & r & m & Hn & Hk & Hg & Hs & Hb & Hl & ->).
    exists (S n), r, m. repeat split; try assumption; try lia.
    + intros [| j] Hj; [now rewrite Nat.add_0_r |].
      replace (i + S j) with (S i + j) by lia. apply Hk. lia.
    + now replace (i + S n) with (S i + n) by lia.
  - rewrite He in H. discriminate.
  - rewrite (poll_populated fuel i r b' m) in H by assumption.
    injection H as <- <-.
    exists 0, r, m. rewrite Nat.add_0_r. repeat split; try assumption; try lia.
Qed.

(** The loop is still running only when every answer so far kept it going. *)
Lemma poll_spin_inv (fuel i : nat) (t : list effect) :
  poll_history w prompt_id fuel i = (t, Spin) ->
  (forall j, j < fuel -> loop_continues (session_get w url (i + j)) = true) /\
  t = waiting_trace url fuel.
Proof.
  revert i t. induction fuel as [| fuel IH]; intros i t H.
  - injection H as <-. split; [intros j Hj; lia | reflexivity].
  - destruct (poll_step_cases fuel i) as [Hc | [[e He] | (r & b' & m & Hg & Hs & Hb & Hl)]].
    + rewrite poll_continue in H by assumption.
      destruct (poll_history w prompt_id fuel (S i)) as [t' o] eqn:Hp.
      simpl in H. injection H as <- ->.
      destruct (IH _ _ Hp) as [Hk ->]. split; [| reflexivity].
      intros [| j] Hj; [now rewrite Nat.add_0_r |].
      replace (i + S j) with (S i + j) by lia. apply Hk. lia.
    + rewrite He in H. discriminate.
    + rewrite (poll_populated fuel i r b' m) in H by assumption. discriminate.
Qed.

(** C6: the polling loop is left exactly when a history answer has status
    200 and a non-empty decoded body.  It is left only on such an answer
    (after [n] answers that kept it going, with [n + 1] requests and a
    0.2 s sleep between consecutive ones); such an answer ends it; after
    [N] empty bodies and then a populated one it has made exactly [N + 1]
    requests and [N] sleeps; and as long as the body stays empty it is
    still running, whatever the number of iterations. *)
Theorem poll_history_ends_exactly_when_populated :
  (forall fuel t b,
      poll_history w prompt_id fuel 0 = (t, Ret b) ->
      exists n r m,
        n < fuel /\ session_get w url n = Ok r /\ status_code r = 200%Z /\
        body_json r = Ok b /\ py_len b = Ok (S m) /\
        t = polling_trace url n /\ fetched t = repeat url (n + 1))
  /\
  (forall n r b m fuel,
      (forall i, i < n -> loop_continues (session_get w url i) = true) ->
      session_get w url n = Ok r -> status_code r = 200%Z ->
      body_json r = Ok b -> py_len b = Ok (S m) ->
      n < fuel ->
      poll_history w prompt_id fuel 0 = (polling_trace url n, Ret b))
  /\
  (forall N r b m fuel,
      (forall i, i < N -> empty_body (session_get w url i) = true) ->
      session_get w url N = Ok r -> status_code r = 200%Z ->
      body_json r = Ok b -> py_len b = Ok (S m) ->
      N < fuel ->
      poll_history w prompt_id fuel 0 = (polling_trace url N, Ret b) /\
      fetched (polling_trace url N) = repeat url (N + 1) /\
      polling_trace url N = waiting_trace url N ++ [HttpGet url])
  /\
  (forall fuel,
      (forall i, i < fuel -> empty_body (session_get w url i) = true) ->
      poll_history w prompt_id fuel 0 = (waiting_trace url fuel, Spin)).
Proof.
  assert (Hif : forall n r b m fuel,
             (forall i, i < n -> loop_continues (session_get w url i) = true) ->
             session_get w url n = Ok r -> status_code r = 200%Z ->
             body_json r = Ok b -> py_len b = Ok (S m) ->
             n < fuel ->
             poll_history w prompt_id fuel 0 = (polling_trace url n, Ret b)).
  { intros n r b m fuel Hk Hg Hs Hb Hl Hn.
    replace fuel with (n + S (fuel - S n)) by lia.
    rewrite poll_waits by (intros j Hj; apply Hk; exact Hj).
    rewrite (poll_populated _ _ r b m) by assumption.
    simpl. now rewrite waiting_then_get. }
  split; [| split; [exact Hif | split]].
  - intros fuel t b H.
    destruct (poll_ret_inv _ _ _ _ H) as (n & r & m & Hn & _ & Hg & Hs & Hb & Hl & ->).
    exists n, r, m. rewrite fetched_polling_trace, Nat.add_1_r. auto 10.
  - intros N r b m fuel He Hg Hs Hb Hl Hn. split; [| split].
    + apply (Hif N r b m); try assumption.
      intros i Hi. apply empty_body_continues. now apply He.
    + now rewrite fetched_polling_trace, Nat.add_1_r.
    + symmetry. apply waiting_then_get.
  - intros fuel He.
    rewrite <- (Nat.add_0_r fuel) at 1.
    rewrite poll_waits by (intros j Hj; apply empty_body_continues, He; exact Hj).
    simpl. now rewrite app_nil_r.
Qed.

End Polling.

(* ================================================================== *)
(** ** What each part of the handler does to the world *)

Lemma submitted_nil (t : list effect) :
  Forall (fun ev => is_post ev = false) t -> submitted t = [].
Proof.
  induction 1 as [| ev t H _ IH]; [reflexivity |].
  destruct ev; try discriminate; exact IH.
Qed.

Lemma fetched_nil (t : list effect) :
  Forall (fun ev => is_get ev = false) t -> fetched t = [].
Proof.
  induction 1 as [| ev t H _ IH]; [reflexivity |].
  destruct ev; try discriminate; exact IH.
Qed.

Lemma file_writes_nil (t : list effect) :
  Forall (fun ev => touches_input_dir ev = false) t -> file_writes t = [].
Proof.
  induction 1 as [| ev t H _ IH]; [reflexivity |].
  unfold file_writes in *. simpl. rewrite H. exact IH.
Qed.

Lemma In_submitted (url : string) (payload : json) (t : list effect) :
  In (HttpPost url payload) t -> In payload (submitted t).
Proof.
  induction t as [| ev t IH]; simpl; [tauto |].
  intros [-> | H]; [now left |].
  destruct ev; simpl; auto.
Qed.

Section TraceShapes.

Variable P : effect -> Prop.

Lemma bind_Forall {A B : Type} (m : M A) (k : A -> M B) :
  Forall P (fst m) -> (forall a, Forall P (fst (k a))) -> Forall P (fst (bind m k)).
Proof.
  intros Hm Hk. destruct m as [t [a | e | ]]; simpl in *; try assumption.
  specialize (Hk a). destruct (k a) as [t' o]. simpl in *.
  apply Forall_app. now split.
Qed.

Lemma lift_Forall {A : Type} (r : result A) : Forall P (fst (lift r)).
Proof. destruct r; constructor. Qed.

Lemma ret_Forall {A : Type} (a : A) : Forall P (fst (ret a)).
Proof. constructor. Qed.

Lemma raise_Forall {A : Type} (e : exn) : Forall P (fst (@raise A e)).
Proof. constructor. Qed.

Lemma perform_Forall {A : Type} (ev : effect) (r : result A) :
  P ev -> Forall P (fst (perform ev r)).
Proof. intros H. repeat constructor. exact H. Qed.

End TraceShapes.

Lemma bind_not_spin {A B : Type} (m : M A) (k : A -> M B) :
  snd m <> Spin -> (forall a, snd (k a) <> Spin) -> snd (bind m k) <> Spin.
Proof.
  intros Hm Hk. destruct m as [t [a | e | ]]; simpl in *.
  - specialize (Hk a). now destruct (k a).
  - discriminate.
  - now contradiction Hm.
Qed.

Lemma lift_not_spin {A : Type} (r : result A) : snd (lift r) <> Spin.
Proof. destruct r; discriminate. Qed.

Lemma perform_not_spin {A : Type} (ev : effect) (r : result A) :
  snd (perform ev r) <> Spin.
Proof. destruct r; discriminate. Qed.

Ltac split_branch :=
  match goal with
  | |- context [if ?b then _ else _] => destruct b
  | |- context [match ?x with _ => _ end] => destruct x
  end.

Ltac trace_shape :=
  repeat first
    [ solve [auto]
    | apply lift_Forall | apply ret_Forall | apply raise_Forall
    | apply perform_Forall; reflexivity
    | apply bind_Forall; [| intros ]
    | split_branch ].

Ltac never_spins :=
  repeat first
    [ solve [auto]
    | apply lift_not_spin | apply perform_not_spin | discriminate
    | apply bind_not_spin; [| intros ]
    | split_branch ].

Lemma save_init_image_trace (w : World) (base64_str filename : string) :
  Forall (fun ev => touches_input_dir ev = true)
         (fst (save_init_image w base64_str filename)).
Proof. unfold save_init_image. trace_shape. Qed.

Lemma save_init_image_not_spin (w : World) (base64_str filename : string) :
  snd (save_init_image w base64_str filename) <> Spin.
Proof. unfold save_init_image. never_spins. Qed.

Lemma apply_init_image_trace (w : World) (payload workflow : json) :
  Forall (fun ev => touches_input_dir ev = true)
         (fst (apply_init_image w payload workflow)).
Proof.
  pose proof (save_init_image_trace w) as Hsave.
  unfold apply_init_image. trace_shape.
Qed.

Lemma apply_init_image_not_spin (w : World) (payload workflow : json) :
  snd (apply_init_image w payload workflow) <> Spin.
Proof.
  pose proof (save_init_image_not_spin w) as Hsave.
  unfold apply_init_image. never_spins.
Qed.

Lemma read_images_trace (w : World) (image_filenames : list json) :
  Forall (fun ev => is_read ev = true) (fst (read_images w image_filenames)).
Proof.
  induction image_filenames as [| x l IH]; cbn [read_images]; trace_shape.
Qed.

Lemma read_images_not_spin (w : World) (image_filenames : list json) :
  snd (read_images w image_filenames) <> Spin.
Proof.
  induction image_filenames as [| x l IH]; cbn [read_images]; never_spins.
Qed.

Lemma collect_images_trace (w : World) (prompt_id resp_json : json) :
  Forall (fun ev => is_read ev = true) (fst (collect_images w prompt_id resp_json)).
Proof.
  pose proof (read_images_trace w) as Hread.
  unfold collect_images. trace_shape.
Qed.

Lemma collect_images_not_spin (w : World) (prompt_id resp_json : json) :
  snd (collect_images w prompt_id resp_json) <> Spin.
Proof.
  pose proof (read_images_not_spin w) as Hread.
  unfold collect_images. never_spins.
Qed.

Lemma poll_history_trace (w : World) (prompt_id : json) (fuel i : nat) :
  Forall (fun ev => is_poll_effect ev = true) (fst (poll_history w prompt_id fuel i)).
Proof.
  revert i. induction fuel as [| fuel IH]; intros i; [constructor |].
  rewrite poll_history_S. unfold send_get_request. trace_shape.
Qed.

(** A value the handler returns after collecting is a success payload. *)
Lemma collect_images_ret (w : World) (prompt_id resp_json v : json) :
  snd (collect_images w prompt_id resp_json) = Ret v -> is_images_payload v = true.
Proof.
  unfold collect_images.
  destruct (py_getitem resp_json prompt_id) as [entry | e]; [| discriminate].
  rewrite bind_lift_ok.
  destruct (py_getitem entry (JStr "outputs")) as [outputs | e]; [| discriminate].
  rewrite bind_lift_ok.
  destruct (negb (py_truthy outputs)); [discriminate |].
  destruct (get_filenames outputs) as [names | e]; [| discriminate].
  rewrite bind_lift_ok.
  destruct (read_images w names) as [t [images | e | ]]; simpl; try discriminate.
  intros H. injection H as <-. reflexivity.
Qed.

(* ================================================================== *)
(** ** The handler, step by step *)

Lemma handler_catches (w : World) (fuel : nat) (event : json) :
  handler w fuel event
  = match handler_body w fuel event with
    | (t, Raise e) => (t, Ret (JObj [("error", JStr (str_exn w e))]))
    | m => m
    end.
Proof.
  unfold handler, catch.
  destruct (handler_body w fuel event) as [t [v | e | ]]; try reflexivity.
  simpl. now rewrite app_nil_r.
Qed.

(** On a valid input the handler patches the workflow and runs it. *)
Lemma handler_body_valid (w : World) (fuel : nat) (event payload workflow : json) :
  valid_input w event payload workflow ->
  handler_body w fuel event
  = bind (apply_init_image w payload workflow) (run_workflow w fuel).
Proof.
  intros [(raw & validated & Hi & Hv & He & Hp) [Hw Hg]].
  unfold handler_body.
  rewrite Hi, bind_lift_ok, Hv, bind_lift_ok, He, bind_lift_ok.
  rewrite Hp, bind_lift_ok, Hw, bind_lift_ok. cbn [negb].
  rewrite Hg, bind_lift_ok. reflexivity.
Qed.

(** Any other input ends the handler's body before it touches the world. *)
Lemma handler_body_front (w : World) (fuel : nat) (event : json) :
  (exists m, handler_body w fuel event = ([], Ret (JObj [("error", m)])))
  \/ (exists e, handler_body w fuel event = ([], Raise e))
  \/ (exists payload workflow, valid_input w event payload workflow).
Proof.
  unfold valid_input, validated_payload, handler_body.
  destruct (py_getitem event (JStr "input")) as [raw | e];
    [rewrite bind_lift_ok | right; left; now exists e].
  destruct (validate w raw) as [validated | e] eqn:Hv;
    [rewrite bind_lift_ok | right; left; now exists e].
  destruct (py_contains "errors" validated) as [has | e] eqn:He;
    [rewrite bind_lift_ok | right; left; now exists e].
  destruct has.
  { destruct (py_getitem validated (JStr "errors")) as [errors | e];
      [rewrite bind_lift_ok; left; now exists errors | right; left; now exists e]. }
  destruct (py_getitem validated (JStr "validated_input")) as [payload | e] eqn:Hp;
    [rewrite bind_lift_ok | right; left; now exists e].
  destruct (py_contains "workflow" payload) as [has | e] eqn:Hw;
    [rewrite bind_lift_ok | right; left; now exists e].
  destruct has; cbn [negb]; [| left; eexists; reflexivity].
  destruct (py_getitem payload (JStr "workflow")) as [workflow | e] eqn:Hg;
    [| right; left; now exists e].
  right; right. exists payload, workflow.
  split; [exists raw, validated; auto | auto].
Qed.

Section RunWorkflow.

Variable w : World.
Variable fuel : nat.
Variable workflow : json.

Let url : string := url_of "prompt".
Let payload : json := JObj [("prompt", workflow)].

Lemma run_workflow_request_failed (e : exn) :
  session_post w url payload = Err e ->
  run_workflow w fuel workflow = ([HttpPost url payload], Raise e).
Proof.
  intros H. unfold run_workflow, send_post_request. fold url payload.
  now rewrite H.
Qed.

Lemma run_workflow_undecodable (r : response) (e : exn) :
  session_post w url payload = Ok r ->
  body_json r = Err e ->
  run_workflow w fuel workflow = ([HttpPost url payload], Raise e).
Proof.
  intros H Hb. unfold run_workflow, send_post_request. fold url payload.
  now rewrite H, bind_perform_ok, Hb.
Qed.

Lemma run_workflow_rejected (r : response) (b : json) :
  session_post w url payload = Ok r ->
  body_json r = Ok b ->
  status_code r <> 200%Z ->
  run_workflow w fuel workflow = ([HttpPost url payload], Ret b).
Proof.
  intros H Hb Hs. apply Z.eqb_neq in Hs.
  unfold run_workflow, send_post_request. fold url payload.
  now rewrite H, bind_perform_ok, Hb, bind_lift_ok, Hs.
Qed.

Lemma run_workflow_accepted (r : response) (b : json) :
  session_post w url payload = Ok r ->
  body_json r = Ok b ->
  status_code r = 200%Z ->
  run_workflow w fuel workflow
  = bind ([HttpPost url payload], Ret tt) (fun _ =>
      prompt_id <- lift (py_get b "prompt_id" JNull) ;;
      if negb (py_truthy prompt_id) then
        ret (JObj [("error", JStr "No prompt_id returned by ComfyUI")])
      else
        resp_json <- poll_history w prompt_id fuel 0 ;;
        collect_images w prompt_id resp_json).
Proof.
  intros H Hb Hs. apply Z.eqb_eq in Hs.
  unfold run_workflow, send_post_request. fold url payload.
  rewrite H, bind_perform_ok, Hb, bind_lift_ok, Hs. cbn [negb].
  now rewrite bind_pair.
Qed.

Lemma run_workflow_no_identifier (r : response) (b prompt_id : json) :
  session_post w url payload = Ok r ->
  body_json r = Ok b ->
  status_code r = 200%Z ->
  py_get b "prompt_id" JNull = Ok prompt_id ->
  py_truthy prompt_id = false ->
  run_workflow w fuel workflow
  = ([HttpPost url payload],
     Ret (JObj [("error", JStr "No prompt_id returned by ComfyUI")])).
Proof.
  intros H Hb Hs Hg Ht. rewrite (run_workflow_accepted r b) by assumption.
  rewrite bind_pair. cbv beta. now rewrite Hg, bind_lift_ok, Ht.
Qed.

Lemma run_workflow_not_a_dict (r : response) (b : json) (e : exn) :
  session_post w url payload = Ok r ->
  body_json r = Ok b ->
  status_code r = 200%Z ->
  py_get b "prompt_id" JNull = Err e ->
  run_workflow w fuel workflow = ([HttpPost url payload], Raise e).
Proof.
  intros H Hb Hs Hg. rewrite (run_workflow_accepted r b) by assumption.
  rewrite bind_pair. cbv beta. now rewrite Hg.
Qed.

Lemma run_workflow_polls (r : response) (b prompt_id : json) :
  session_post w url payload = Ok r ->
  body_json r = Ok b ->
  status_code r = 200%Z ->
  py_get b "prompt_id" JNull = Ok prompt_id ->
  py_truthy prompt_id = true ->
  run_workflow w fuel workflow
  = bind ([HttpPost url payload], Ret tt) (fun _ =>
      bind (poll_history w prompt_id fuel 0) (collect_images w prompt_id)).
Proof.
  intros H Hb Hs Hg Ht. rewrite (run_workflow_accepted r b) by assumption.
  rewrite !bind_pair. cbv beta. now rewrite Hg, bind_lift_ok, Ht.
Qed.

(** Whatever the engine answers, the workflow is posted first and
    nothing is posted after it. *)
Lemma run_workflow_trace :
  exists t, fst (run_workflow w fuel workflow) = HttpPost url payload :: t /\
            Forall (fun ev => is_poll_effect ev = true \/ is_read ev = true) t.
Proof.
  destruct (session_post w url payload) as [r | e] eqn:H.
  2:{ rewrite (run_workflow_request_failed e H). now exists []. }
  destruct (body_json r) as [b | e] eqn:Hb.
  2:{ rewrite (run_workflow_undecodable r e H Hb). now exists []. }
  destruct (Z.eq_dec (status_code r) 200) as [Hs | Hs].
  2:{ rewrite (run_workflow_rejected r b H Hb Hs). now exists []. }
  rewrite (run_workflow_accepted r b H Hb Hs), bind_pair. cbv beta.
  eexists. split; [reflexivity |].
  pose proof (fun p i => Forall_impl
                (fun ev => is_poll_effect ev = true \/ is_read ev = true)
                (fun ev Hev => or_introl Hev)
                (poll_history_trace w p fuel i)) as Hpoll.
  pose proof (fun p b' => Forall_impl
                (fun ev => is_poll_effect ev = true \/ is_read ev = true)
                (fun ev Hev => or_intror Hev)
                (collect_images_trace w p b')) as Hcollect.
  trace_shape.
Qed.

End RunWorkflow.

Lemma apply_init_image_quiet (w : World) (payload workflow : json) :
  submitted (fst (apply_init_image w payload workflow)) = [] /\
  fetched (fst (apply_init_image w payload workflow)) = [].
Proof.
  pose proof (apply_init_image_trace w payload workflow) as H.
  split; [apply submitted_nil | apply fetched_nil];
    (eapply Forall_impl; [| exact H]); intros [] Hev; (reflexivity || discriminate).
Qed.

Lemma after_post_quiet (t : list effect) :
  Forall (fun ev => is_poll_effect ev = true \/ is_read ev = true) t ->
  submitted t = [] /\ file_writes t = [].
Proof.
  intros H. split; [apply submitted_nil | apply file_writes_nil];
    (eapply Forall_impl; [| exact H]);
    intros [] [Hev | Hev]; (reflexivity || discriminate).
Qed.

Lemma handler_trace (w : World) (fuel : nat) (event : json) :
  fst (handler w fuel event) = fst (handler_body w fuel event).
Proof.
  rewrite handler_catches.
  now destruct (handler_body w fuel event) as [t [v | e | ]].
Qed.

Lemma handler_outcome (w : World) (fuel : nat) (event : json) :
  snd (handler w fuel event)
  = match snd (handler_body w fuel event) with
    | Raise e => Ret (JObj [("error", JStr (str_exn w e))])
    | o => o
    end.
Proof.
  rewrite handler_catches.
  now destruct (handler_body w fuel event) as [t [v | e | ]].
Qed.

(** The only request the handler posts is the submission of the workflow
    that [apply_init_image] left. *)
Lemma handler_submits_inv (w : World) (fuel : nat) (event : json)
      (url : string) (payload : json) :
  In (HttpPost url payload) (fst (handler w fuel event)) ->
  exists pl workflow t1 workflow',
    valid_input w event pl workflow /\
    apply_init_image w pl workflow = (t1, Ret workflow') /\
    url = url_of "prompt" /\
    payload = JObj [("prompt", workflow')] /\
    handler_body w fuel event
    = (t1 ++ fst (run_workflow w fuel workflow'),
       snd (run_workflow w fuel workflow')).
Proof.
  rewrite handler_trace. intros Hin.
  destruct (handler_body_front w fuel event) as [[m H] | [[e H] | (pl & wf & Hv)]];
    try (rewrite H in Hin; contradiction).
  rewrite (handler_body_valid w fuel event pl wf Hv) in *.
  destruct (apply_init_image_quiet w pl wf) as [Hq _].
  destruct (apply_init_image w pl wf) as [t1 [wf' | e | ]] eqn:Ha; simpl in Hq.
  - rewrite bind_pair in *. simpl in Hin.
    assert (Heq : HttpPost (url_of "prompt") (JObj [("prompt", wf')])
                  = HttpPost url payload).
    { apply in_app_or in Hin as [Hin | Hin].
      - apply In_submitted in Hin. rewrite Hq in Hin. contradiction.
      - destruct (run_workflow_trace w fuel wf') as (t & Ht & Hf).
        rewrite Ht in Hin. destruct Hin as [Hin | Hin]; [exact Hin |].
        apply In_submitted in Hin.
        rewrite (proj1 (after_post_quiet t Hf)) in Hin. contradiction. }
    injection Heq as <- <-.
    exists pl, wf, t1, wf'. auto.
  - simpl in Hin. apply In_submitted in Hin. rewrite Hq in Hin. contradiction.
  - simpl in Hin. apply In_submitted in Hin. rewrite Hq in Hin. contradiction.
Qed.

Lemma run_workflow_outcome (w : World) (fuel : nat) (workflow : json) :
  match snd (run_workflow w fuel workflow) with
  | Ret v =>
      is_images_payload v = true \/ is_error_payload v = true \/
      exists r, session_post w (url_of "prompt") (JObj [("prompt", workflow)]) = Ok r /\
                status_code r <> 200%Z /\ body_json r = Ok v
  | Raise _ => True
  | Spin =>
      exists url,
        fetched (fst (run_workflow w fuel workflow)) = repeat url fuel /\
        forall i, i < fuel -> loop_continues (session_get w url i) = true
  end.
Proof.
  destruct (session_post w (url_of "prompt") (JObj [("prompt", workflow)]))
    as [r | e] eqn:H.
  2:{ now rewrite (run_workflow_request_failed w fuel workflow e H). }
  destruct (body_json r) as [b | e] eqn:Hb.
  2:{ now rewrite (run_workflow_undecodable w fuel workflow r e H Hb). }
  destruct (Z.eq_dec (status_code r) 200) as [Hs | Hs].
  2:{ rewrite (run_workflow_rejected w fuel workflow r b H Hb Hs). simpl.
      right; right. now exists r. }
  destruct (py_get b "prompt_id" JNull) as [pid | e] eqn:Hg.
  2:{ now rewrite (run_workflow_not_a_dict w fuel workflow r b e H Hb Hs Hg). }
  destruct (py_truthy pid) eqn:Ht.
  2:{ rewrite (run_workflow_no_identifier w fuel workflow r b pid H Hb Hs Hg Ht).
      simpl. now right; left. }
  rewrite (run_workflow_polls w fuel workflow r b pid H Hb Hs Hg Ht).
  rewrite bind_pair. cbv beta.
  destruct (poll_history w pid fuel 0) as [tp [resp | e | ]] eqn:Hp; simpl.
  - pose proof (collect_images_ret w pid resp) as Hc.
    pose proof (collect_images_not_spin w pid resp) as Hn.
    destruct (collect_images w pid resp) as [tc [v | e | ]]; simpl in *; auto.
    now contradiction Hn.
  - exact I.
  - destruct (poll_spin_inv w pid fuel 0 tp Hp) as [Hk ->].
    exists (url_of (history_endpoint w pid)). split.
    + apply fetched_waiting_trace.
    + exact Hk.
Qed.

Lemma job_identifier_some (r : response) (prompt_id : json) :
  job_identifier r = Some prompt_id ->
  exists b, body_json r = Ok b /\ py_get b "prompt_id" JNull = Ok prompt_id /\
            py_truthy prompt_id = true.
Proof.
  unfold job_identifier. intros H.
  destruct (body_json r) as [b | e]; [| discriminate].
  exists b. split; [reflexivity |].
  destruct (py_get b "prompt_id" JNull) as [pid | e]; [| discriminate].
  destruct (py_truthy pid) eqn:Ht; [| discriminate].
  injection H as <-. auto.
Qed.

(* ================================================================== *)
(** ** The handler's result *)

(** C1 (as amended): the handler lets no exception out.  When it returns,
    its result is a success payload [{images: [...]}], an error payload
    [{error: message}], or the decoded body of the engine's non-200 answer
    to the submission, relayed as it is.  It is still running after [fuel]
    polls only when each of these polls told it to go on; and it is still
    running, with one history request per iteration made, whenever the
    submission was accepted with a job identifier and every history
    answer so far had an empty body. *)
Theorem handler_result_shape (w : World) (fuel : nat) (event : json) :
  match snd (handler w fuel event) with
  | Ret v =>
      is_images_payload v = true \/ is_error_payload v = true \/
      relayed_rejection w (fst (handler w fuel event)) v
  | Raise _ => False
  | Spin =>
      exists url,
        fetched (fst (handler w fuel event)) = repeat url fuel /\
        forall i, i < fuel -> loop_continues (session_get w url i) = true
  end
  /\
  (forall payload workflow workflow' r prompt_id,
      valid_input w event payload workflow ->
      snd (apply_init_image w payload workflow) = Ret workflow' ->
      session_post w (url_of "prompt") (JObj [("prompt", workflow')]) = Ok r ->
      status_code r = 200%Z ->
      job_identifier r = Some prompt_id ->
      (forall i, i < fuel ->
                 empty_body
                   (session_get w (url_of (history_endpoint w prompt_id)) i) = true) ->
      snd (handler w fuel event) = Spin /\
      fetched (fst (handler w fuel event))
      = repeat (BASE_URI ++ "/history/" ++ py_str w prompt_id)%string fuel).
Proof.
  split.
  { rewrite handler_outcome, handler_trace.
    destruct (handler_body_front w fuel event) as [[m H] | [[e H] | (pl & wf & Hv)]].
    - rewrite H. simpl. now right; left.
    - rewrite H. simpl. now right; left.
    - rewrite (handler_body_valid w fuel event pl wf Hv).
      pose proof (apply_init_image_not_spin w pl wf) as Hn.
      destruct (apply_init_image_quiet w pl wf) as [_ Hq].
      destruct (apply_init_image w pl wf) as [t1 [wf' | e | ]]; simpl in Hn, Hq.
      + rewrite bind_pair. simpl.
        pose proof (run_workflow_outcome w fuel wf') as Ho.
        destruct (run_workflow_trace w fuel wf') as (t & Ht & _).
        destruct (run_workflow w fuel wf') as [t2 [v | e | ]]; simpl in *.
        * destruct Ho as [Ho | [Ho | (r & Hr & Hs & Hb)]]; auto.
          right; right. exists (url_of "prompt"), (JObj [("prompt", wf')]), r.
          repeat split; try assumption.
          apply in_or_app. right. rewrite Ht. now left.
        * now right; left.
        * destruct Ho as (url & Hf & Hk). exists url.
          now rewrite fetched_app, Hq.
      + simpl. now right; left.
      + now contradiction Hn. }
  intros pl wf wf' r pid Hv Ha Hr Hs Hj Hempty.
  destruct (job_identifier_some r pid Hj) as (b & Hb & Hg & Ht).
  destruct (apply_init_image_quiet w pl wf) as [_ Hq].
  rewrite handler_outcome, handler_trace.
  rewrite (handler_body_valid w fuel event pl wf Hv).
  destruct (apply_init_image w pl wf) as [t1 o1]. simpl in Ha, Hq. subst o1.
  rewrite bind_pair.
  rewrite (run_workflow_polls w fuel wf' r b pid Hr Hb Hs Hg Ht).
  rewrite bind_pair. cbv beta.
  assert (Hp : poll_history w pid fuel 0
               = (waiting_trace (url_of (history_endpoint w pid)) fuel, Spin)).
  { rewrite <- (Nat.add_0_r fuel) at 1.
    rewrite poll_waits
      by (intros j Hj'; apply empty_body_continues, Hempty; exact Hj').
    simpl. now rewrite app_nil_r. }
  rewrite Hp. cbn [bind fst snd]. split; [reflexivity |].
  rewrite !fetched_app, Hq, fetched_waiting_trace. reflexivity.
Qed.

(** While the engine answers [{}] the handler is still polling. *)
Lemma handler_result_shape_witness :
  snd (handler ready_world 2 plain_event) = Spin /\
  fetched (fst (handler ready_world 2 plain_event))
  = repeat (BASE_URI ++ "/history/" ++ py_str ready_world (JStr "abc"))%string 2.
Proof.
  apply (proj2 (handler_result_shape ready_world 2 plain_event)
               (JObj [("workflow", ksampler_workflow)]) ksampler_workflow
               ksampler_workflow
               {| status_code := 200;
                  body_json := Ok (JObj [("prompt_id", JStr "abc")]) |}
               (JStr "abc")).
  - split; [| split; reflexivity].
    exists (JObj [("workflow", ksampler_workflow)]),
           (JObj [("validated_input", JObj [("workflow", ksampler_workflow)])]).
    repeat split.
  - reflexivity.
  - reflexivity.
  - reflexivity.
  - reflexivity.
  - intros [| [| i]] Hi; try reflexivity. lia.
Defined.

(** C1, as stated, fails: the engine rejects the submission with a body
    that has neither [images] nor [error], and that body is the handler's
    result. *)
Lemma handler_relays_any_rejection_body :
  snd (handler (example_world (answer 404 (JObj [("detail", JStr "Not Found")]))
                              history_after_two)
               1 (event_of (JObj [("workflow", ksampler_workflow)])))
  = Ret (JObj [("detail", JStr "Not Found")])
  /\ is_images_payload (JObj [("detail", JStr "Not Found")]) = false
  /\ is_error_payload (JObj [("detail", JStr "Not Found")]) = false.
Proof. repeat split. Qed.

(** C2 (as amended): when the engine answers the submission with a non-200
    status, the handler returns the engine's decoded body itself, unchanged;
    it is not wrapped into [{error: ...}]. *)
Theorem rejection_body_relayed_unchanged
        (w : World) (fuel : nat) (event : json)
        (url : string) (payload : json) (r : response) (b : json) :
  In (HttpPost url payload) (fst (handler w fuel event)) ->
  session_post w url payload = Ok r ->
  status_code r <> 200%Z ->
  body_json r = Ok b ->
  snd (handler w fuel event) = Ret b.
Proof.
  intros Hin Hr Hs Hb.
  destruct (handler_submits_inv w fuel event url payload Hin)
    as (pl & wf & t1 & wf' & _ & _ & -> & -> & Hbody).
  rewrite handler_outcome, Hbody.
  now rewrite (run_workflow_rejected w fuel wf' r b Hr Hb Hs).
Qed.

(** The rejection of the specification: 500 with [{detail: "bad node"}]. *)
Lemma rejection_body_relayed_unchanged_witness :
  snd (handler bad_node_world 1 (event_of (JObj [("workflow", ksampler_workflow)])))
  = Ret (JObj [("detail", JStr "bad node")]).
Proof.
  apply (rejection_body_relayed_unchanged
           bad_node_world 1 (event_of (JObj [("workflow", ksampler_workflow)]))
           (url_of "prompt") (JObj [("prompt", ksampler_workflow)])
           {| status_code := 500; body_json := Ok (JObj [("detail", JStr "bad node")]) |}).
  - vm_compute. left. reflexivity.
  - reflexivity.
  - simpl. lia.
  - reflexivity.
Defined.

(** C2, as stated, fails: a submission answered 500 with
    [{detail: "bad node"}] gives that body back, which is no
    [{error: ...}] payload and has no [error] key. *)
Lemma bad_node_body_is_not_wrapped :
  snd (handler bad_node_world 1 (event_of (JObj [("workflow", ksampler_workflow)])))
  = Ret (JObj [("detail", JStr "bad node")])
  /\ is_error_payload (JObj [("detail", JStr "bad node")]) = false
  /\ py_contains "error" (JObj [("detail", JStr "bad node")]) = Ok false.
Proof. repeat split. Qed.

(** C9: when the engine answers the submission with status 200 and a body
    that carries no job identifier (no [prompt_id], or a falsy one), the
    handler returns an error payload and makes no history request. *)
Theorem no_job_identifier_fails_without_polling
        (w : World) (fuel : nat) (event : json)
        (url : string) (payload : json) (r : response) :
  In (HttpPost url payload) (fst (handler w fuel event)) ->
  session_post w url payload = Ok r ->
  status_code r = 200%Z ->
  job_identifier r = None ->
  (exists m, snd (handler w fuel event) = Ret (JObj [("error", m)])) /\
  fetched (fst (handler w fuel event)) = [].
Proof.
  intros Hin Hr Hs Hj.
  destruct (handler_submits_inv w fuel event url payload Hin)
    as (pl & wf & t1 & wf' & _ & Ha & -> & -> & Hbody).
  rewrite handler_outcome, handler_trace, Hbody.
  destruct (apply_init_image_quiet w pl wf) as [_ Hq]. rewrite Ha in Hq. simpl in Hq.
  unfold job_identifier in Hj.
  destruct (body_json r) as [b | e] eqn:Hb.
  2:{ rewrite (run_workflow_undecodable w fuel wf' r e Hr Hb). simpl.
      rewrite fetched_app, Hq. split; [eexists |]; reflexivity. }
  destruct (py_get b "prompt_id" JNull) as [pid | e] eqn:Hg.
  2:{ rewrite (run_workflow_not_a_dict w fuel wf' r b e Hr Hb Hs Hg). simpl.
      rewrite fetched_app, Hq. split; [eexists |]; reflexivity. }
  destruct (py_truthy pid) eqn:Ht; [discriminate |].
  rewrite (run_workflow_no_identifier w fuel wf' r b pid Hr Hb Hs Hg Ht). simpl.
  rewrite fetched_app, Hq. split; [eexists |]; reflexivity.
Qed.

(** A submission answered 200 with an empty [prompt_id]. *)
Lemma no_job_identifier_fails_without_polling_witness :
  (exists m,
      snd (handler no_identifier_world 3
                   (event_of (JObj [("workflow", ksampler_workflow)])))
      = Ret (JObj [("error", m)])) /\
  fetched (fst (handler no_identifier_world 3
                        (event_of (JObj [("workflow", ksampler_workflow)])))) = [].
Proof.
  apply (no_job_identifier_fails_without_polling
           no_identifier_world 3 (event_of (JObj [("workflow", ksampler_workflow)]))
           (url_of "prompt") (JObj [("prompt", ksampler_workflow)])
           {| status_code := 200; body_json := Ok (JObj [("prompt_id", JStr "")]) |}).
  - vm_compute. left. reflexivity.
  - reflexivity.
  - reflexivity.
  - reflexivity.
Defined.

(** C8: when the validated payload lacks the [workflow] key, the handler
    returns [{error: "Missing workflow in payload"}] and makes no HTTP call
    (it does nothing to the world at all). *)
Theorem missing_workflow_is_reported_without_http
        (w : World) (fuel : nat) (event payload : json) :
  validated_payload w event payload ->
  py_contains "workflow" payload = Ok false ->
  snd (handler w fuel event)
  = Ret (JObj [("error", JStr "Missing workflow in payload")]) /\
  http_calls (fst (handler w fuel event)) = [] /\
  fst (handler w fuel event) = [].
Proof.
  intros (raw & validated & Hi & Hv & He & Hp) Hw.
  assert (H : handler_body w fuel event
              = ([], Ret (JObj [("error", JStr "Missing workflow in payload")]))).
  { unfold handler_body.
    rewrite Hi, bind_lift_ok, Hv, bind_lift_ok, He, bind_lift_ok.
    now rewrite Hp, bind_lift_ok, Hw, bind_lift_ok. }
  rewrite handler_outcome, handler_trace, H. auto.
Qed.

(** An input that brings an image but no workflow. *)
Lemma missing_workflow_is_reported_without_http_witness :
  snd (handler bad_node_world 3 (event_of (JObj [("init_image", JStr "iVBORw==")])))
  = Ret (JObj [("error", JStr "Missing workflow in payload")]) /\
  http_calls (fst (handler bad_node_world 3
                           (event_of (JObj [("init_image", JStr "iVBORw==")])))) = [] /\
  fst (handler bad_node_world 3 (event_of (JObj [("init_image", JStr "iVBORw==")]))) = [].
Proof.
  apply (missing_workflow_is_reported_without_http
           bad_node_world 3 (event_of (JObj [("init_image", JStr "iVBORw==")]))
           (JObj [("init_image", JStr "iVBORw==")])).
  - exists (JObj [("init_image", JStr "iVBORw==")]),
           (JObj [("validated_input", JObj [("init_image", JStr "iVBORw==")])]).
    repeat split.
  - reflexivity.
Defined.

(* ================================================================== *)
(** ** After the polling loop *)

Lemma collect_images_no_output (w : World) (prompt_id resp_json entry outputs : json) :
  py_getitem resp_json prompt_id = Ok entry ->
  py_getitem entry (JStr "outputs") = Ok outputs ->
  py_truthy outputs = false ->
  collect_images w prompt_id resp_json = ([], Raise (RuntimeError NO_OUTPUT)).
Proof.
  intros He Ho Ht. unfold collect_images.
  now rewrite He, bind_lift_ok, Ho, bind_lift_ok, Ht.
Qed.

Lemma collect_images_lookup_fails (w : World) (prompt_id resp_json entry : json) (e : exn) :
  py_getitem resp_json prompt_id = Ok entry ->
  py_getitem entry (JStr "outputs") = Err e ->
  collect_images w prompt_id resp_json = ([], Raise e).
Proof.
  intros He Ho. unfold collect_images.
  now rewrite He, bind_lift_ok, Ho.
Qed.

(** C5 (as amended): after the polling loop has ended with the body
    [resp_json], if the entry of the job identifier holds an [outputs] that
    is empty (falsy), the handler returns
    [{error: "No output found, check model and workflow validity"}]; if the
    entry has no [outputs] key, the handler returns an error payload whose
    message is the text of the failed lookup, [repr('outputs')]. *)
Theorem no_output_is_reported
        (w : World) (fuel : nat) (event : json)
        (url : string) (payload : json) (r : response)
        (prompt_id : json) (tp : list effect) (resp_json entry : json) :
  In (HttpPost url payload) (fst (handler w fuel event)) ->
  session_post w url payload = Ok r ->
  status_code r = 200%Z ->
  job_identifier r = Some prompt_id ->
  poll_history w prompt_id fuel 0 = (tp, Ret resp_json) ->
  py_getitem resp_json prompt_id = Ok entry ->
  (forall outputs,
      py_getitem entry (JStr "outputs") = Ok outputs ->
      py_truthy outputs = false ->
      snd (handler w fuel event) = Ret (JObj [("error", JStr NO_OUTPUT)]))
  /\
  (forall fields,
      entry = JObj fields ->
      assoc "outputs" fields = None ->
      snd (handler w fuel event)
      = Ret (JObj [("error", JStr (py_repr w (JStr "outputs")))])).
Proof.
  intros Hin Hr Hs Hj Hp He.
  destruct (handler_submits_inv w fuel event url payload Hin)
    as (pl & wf & t1 & wf' & _ & _ & -> & -> & Hbody).
  destruct (job_identifier_some r prompt_id Hj) as (b & Hb & Hg & Ht).
  rewrite handler_outcome, Hbody.
  rewrite (run_workflow_polls w fuel wf' r b prompt_id Hr Hb Hs Hg Ht).
  rewrite bind_pair. cbv beta. rewrite Hp, bind_pair.
  split.
  - intros outputs Ho Hf.
    now rewrite (collect_images_no_output w prompt_id resp_json entry outputs).
  - intros fields -> Hf.
    rewrite (collect_images_lookup_fails w prompt_id resp_json (JObj fields)
               (KeyError (JStr "outputs"))); [reflexivity | assumption |].
    simpl. now rewrite Hf.
Qed.

(** The history entry of job "abc" holds [outputs: {}]. *)
Lemma no_output_is_reported_witness :
  snd (handler empty_outputs_world 1 (event_of (JObj [("workflow", ksampler_workflow)])))
  = Ret (JObj [("error", JStr NO_OUTPUT)]).
Proof.
  apply (proj1 (no_output_is_reported
                  empty_outputs_world 1
                  (event_of (JObj [("workflow", ksampler_workflow)]))
                  (url_of "prompt") (JObj [("prompt", ksampler_workflow)])
                  {| status_code := 200;
                     body_json := Ok (JObj [("prompt_id", JStr "abc")]) |}
                  (JStr "abc")
                  [HttpGet (url_of "history/abc")]
                  (history_abc (JObj []))
                  (JObj [("outputs", JObj [])])
                  ltac:(vm_compute; left; reflexivity)
                  eq_refl eq_refl eq_refl eq_refl eq_refl)
               (JObj [])).
  - reflexivity.
  - reflexivity.
Defined.

(** C5, as stated, fails when [outputs] is absent: the history entry of
    the job identifier is [{}], and the handler's message is the text of
    the [KeyError], not the "No output found" message. *)
Lemma absent_outputs_reports_the_key :
  py_getitem (JObj []) (JStr "outputs") = Err (KeyError (JStr "outputs"))
  /\ snd (handler absent_outputs_world 1
                  (event_of (JObj [("workflow", ksampler_workflow)])))
     = Ret (JObj [("error", JStr "'outputs'")])
  /\ String.eqb "'outputs'" NO_OUTPUT = false.
Proof. repeat split. Qed.

(* ================================================================== *)
(** ** The init image and the workflow that is submitted *)

Lemma getitem_contains (c : json) (k : string) (v : json) :
  py_getitem c (JStr k) = Ok v -> py_contains k c = Ok true.
Proof.
  destruct c; simpl; try discriminate.
  now destruct (assoc k items).
Qed.

(** On a valid input, once [apply_init_image] has left [workflow'], the
    handler posts [{prompt: workflow'}] and posts or writes nothing after. *)
Lemma handler_valid_trace (w : World) (fuel : nat) (event payload workflow : json)
      (t1 : list effect) (workflow' : json) :
  valid_input w event payload workflow ->
  apply_init_image w payload workflow = (t1, Ret workflow') ->
  exists t,
    fst (handler w fuel event)
    = t1 ++ HttpPost (url_of "prompt") (JObj [("prompt", workflow')]) :: t /\
    submitted t = [] /\ file_writes t = [] /\
    handler_body w fuel event
    = (t1 ++ fst (run_workflow w fuel workflow'), snd (run_workflow w fuel workflow')).
Proof.
  intros Hv Ha. rewrite handler_trace, (handler_body_valid w fuel event _ _ Hv), Ha.
  rewrite bind_pair.
  destruct (run_workflow_trace w fuel workflow') as (t & Ht & Hf).
  exists t. simpl. rewrite Ht.
  destruct (after_post_quiet t Hf) as [Hs Hw]. auto.
Qed.

Lemma apply_init_image_absent (w : World) (payload workflow : json) :
  py_contains "init_image" payload = Ok false ->
  apply_init_image w payload workflow = ([], Ret workflow).
Proof. intros H. unfold apply_init_image. now rewrite H, bind_lift_ok. Qed.

Lemma apply_init_image_not_str (w : World) (payload workflow v : json) :
  py_getitem payload (JStr "init_image") = Ok v ->
  is_str v = false ->
  apply_init_image w payload workflow = ([], Ret workflow).
Proof.
  intros Hg Hs. unfold apply_init_image.
  rewrite (getitem_contains _ _ _ Hg), bind_lift_ok, Hg, bind_lift_ok.
  destruct v; try reflexivity. discriminate.
Qed.

Lemma apply_init_image_str (w : World) (payload workflow : json) (base64_str : string) :
  py_getitem payload (JStr "init_image") = Ok (JStr base64_str) ->
  apply_init_image w payload workflow
  = (image_path <- save_init_image w base64_str "init.png" ;;
     nodes <- lift (py_items workflow) ;;
     nodes' <- lift (patch_first_loadimage image_path nodes) ;;
     ret (JObj nodes')).
Proof.
  intros Hg. unfold apply_init_image.
  now rewrite (getitem_contains _ _ _ Hg), bind_lift_ok, Hg, bind_lift_ok.
Qed.

(** When [save_init_image] returns, it has created the input directory,
    opened [init.png] there and written the decoded bytes to it. *)
Lemma save_init_image_ret (w : World) (base64_str image_path : string) :
  snd (save_init_image w base64_str "init.png") = Ret image_path ->
  image_path = INIT_IMAGE_PATH /\
  exists data,
    b64decode w base64_str = Ok data /\
    save_init_image w base64_str "init.png"
    = ([Makedirs "/runpod-volume/ComfyUI/input";
        OpenWrite INIT_IMAGE_PATH;
        WriteBytes INIT_IMAGE_PATH data], Ret INIT_IMAGE_PATH).
Proof.
  unfold save_init_image.
  change (path_join (VOLUME_MOUNT_PATH ++ "/ComfyUI/input") "init.png")
    with INIT_IMAGE_PATH.
  change (VOLUME_MOUNT_PATH ++ "/ComfyUI/input")%string
    with "/runpod-volume/ComfyUI/input".
  destruct (os_makedirs w _) as [[] | e]; [| discriminate].
  rewrite bind_perform_ok.
  destruct (open_wb w _) as [[] | e]; [| discriminate].
  rewrite bind_perform_ok.
  destruct (b64decode w base64_str) as [data | e]; [| discriminate].
  rewrite bind_lift_ok.
  destruct (file_write w _ data) as [[] | e]; [| discriminate].
  rewrite bind_perform_ok. simpl.
  intros H. injection H as <-. split; [reflexivity |].
  exists data. auto.
Qed.

Lemma patch_no_match (image_path : string) (nodes : list (string * json)) :
  Forall (fun kv => is_loadimage (snd kv) = Ok false) nodes ->
  patch_first_loadimage image_path nodes = Ok nodes.
Proof.
  induction 1 as [| [node_id node] rest H _ IH]; [reflexivity |].
  simpl in *. now rewrite H, IH.
Qed.

Lemma patch_hit (image_path node_id : string) (node : json)
      (inputs : list (string * json)) (rest : list (string * json)) :
  is_loadimage node = Ok true ->
  py_getitem node (JStr "inputs") = Ok (JObj inputs) ->
  patch_first_loadimage image_path ((node_id, node) :: rest)
  = Ok ((node_id, set_image image_path node) :: rest).
Proof.
  intros Hl Hi. unfold set_image. simpl. now rewrite Hl, Hi.
Qed.

Lemma patch_first (image_path node_id : string) (node : json)
      (inputs : list (string * json)) (pre post : list (string * json)) :
  Forall (fun kv => is_loadimage (snd kv) = Ok false) pre ->
  is_loadimage node = Ok true ->
  py_getitem node (JStr "inputs") = Ok (JObj inputs) ->
  patch_first_loadimage image_path (pre ++ (node_id, node) :: post)
  = Ok (pre ++ (node_id, set_image image_path node) :: post).
Proof.
  intros Hpre Hl Hi.
  induction Hpre as [| [id n] pre H _ IH].
  - now apply patch_hit with (inputs := inputs).
  - simpl in *. now rewrite H, IH.
Qed.

Lemma assoc_set_same (k : string) (v : json) (items : list (string * json)) :
  assoc k (assoc_set k v items) = Some v.
Proof.
  induction items as [| [k' v'] rest IH]; simpl.
  - now rewrite String.eqb_refl.
  - destruct (String.eqb k k') eqn:E; simpl; rewrite E; [reflexivity | exact IH].
Qed.

Lemma assoc_set_other (k k0 : string) (v : json) (items : list (string * json)) :
  k0 <> k -> assoc k0 (assoc_set k v items) = assoc k0 items.
Proof.
  intros Hne. induction items as [| [k' v'] rest IH]; simpl.
  - apply String.eqb_neq in Hne. now rewrite Hne.
  - destruct (String.eqb k k') eqn:E; simpl.
    + apply String.eqb_eq in E. subst k'.
      apply String.eqb_neq in Hne. now rewrite Hne.
    + now rewrite IH.
Qed.

(** After the patch the node's [inputs.image] is the path. *)
Lemma set_image_sets (image_path : string) (node : json) (inputs : list (string * json)) :
  py_getitem node (JStr "inputs") = Ok (JObj inputs) ->
  (let? inputs' := py_getitem (set_image image_path node) (JStr "inputs") in
   py_getitem inputs' (JStr "image")) = Ok (JStr image_path).
Proof.
  intros Hi. unfold set_image. rewrite Hi.
  destruct node; try discriminate. simpl.
  rewrite assoc_set_same. simpl. now rewrite assoc_set_same.
Qed.

(** The patch leaves the node's other fields and its other inputs alone. *)
Lemma set_image_other_field (image_path : string) (node : json) (k : string) :
  k <> "inputs" ->
  py_getitem (set_image image_path node) (JStr k) = py_getitem node (JStr k).
Proof.
  intros Hk. unfold set_image.
  destruct (py_getitem node (JStr "inputs")) as [[] | e]; try reflexivity.
  destruct node; try reflexivity. simpl. now rewrite assoc_set_other.
Qed.

Lemma set_image_other_input (image_path : string) (node : json)
      (inputs : list (string * json)) (k : string) :
  py_getitem node (JStr "inputs") = Ok (JObj inputs) ->
  k <> "image" ->
  (let? inputs' := py_getitem (set_image image_path node) (JStr "inputs") in
   py_getitem inputs' (JStr k)) = py_getitem (JObj inputs) (JStr k).
Proof.
  intros Hi Hk. unfold set_image. rewrite Hi.
  destruct node; try discriminate. simpl.
  rewrite assoc_set_same. simpl. now rewrite assoc_set_other.
Qed.

(** C7: on a valid input without [init_image], and on a valid input with
    an [init_image] that is saved and a workflow none of whose nodes has a
    [class_type] that starts, lower-cased, with "loadimage", the handler
    submits exactly one prompt payload, and it holds the input workflow
    unchanged. *)
Theorem unpatched_workflow_is_submitted_unchanged
        (w : World) (fuel : nat) (event payload workflow : json) :
  valid_input w event payload workflow ->
  (py_contains "init_image" payload = Ok false ->
   submitted (fst (handler w fuel event)) = [JObj [("prompt", workflow)]])
  /\
  (forall base64_str image_path nodes,
      py_getitem payload (JStr "init_image") = Ok (JStr base64_str) ->
      snd (save_init_image w base64_str "init.png") = Ret image_path ->
      workflow = JObj nodes ->
      Forall (fun kv => is_loadimage (snd kv) = Ok false) nodes ->
      submitted (fst (handler w fuel event)) = [JObj [("prompt", workflow)]]).
Proof.
  intros Hv. split.
  - intros Hc.
    destruct (handler_valid_trace w fuel event payload workflow [] workflow Hv
                (apply_init_image_absent w payload workflow Hc))
      as (t & Ht & Hs & _).
    rewrite Ht. simpl. now rewrite Hs.
  - intros base64_str image_path nodes Hg Hsave -> Hn.
    destruct (save_init_image_ret w base64_str image_path Hsave)
      as (-> & data & _ & Hrun).
    assert (Ha : apply_init_image w payload (JObj nodes)
                 = ([Makedirs "/runpod-volume/ComfyUI/input";
                     OpenWrite INIT_IMAGE_PATH;
                     WriteBytes INIT_IMAGE_PATH data], Ret (JObj nodes))).
    { rewrite (apply_init_image_str w payload (JObj nodes) base64_str Hg), Hrun.
      rewrite bind_pair. cbv beta. simpl py_items. rewrite bind_lift_ok.
      now rewrite (patch_no_match INIT_IMAGE_PATH nodes Hn), bind_lift_ok. }
    destruct (handler_valid_trace w fuel event payload (JObj nodes) _ _ Hv Ha)
      as (t & Ht & Hs & _).
    rewrite Ht. simpl. now rewrite Hs.
Qed.

(** The example inputs pass validation. *)
Lemma plain_event_valid :
  valid_input ready_world plain_event
              (JObj [("workflow", ksampler_workflow)]) ksampler_workflow.
Proof.
  split; [| split; reflexivity].
  exists (JObj [("workflow", ksampler_workflow)]),
         (JObj [("validated_input", JObj [("workflow", ksampler_workflow)])]).
  repeat split.
Defined.

Lemma image_event_valid (workflow : json) :
  valid_input ready_world (image_event workflow)
              (JObj [("workflow", workflow); ("init_image", JStr "iVBORw==")])
              workflow.
Proof.
  split; [| split; reflexivity].
  exists (JObj [("workflow", workflow); ("init_image", JStr "iVBORw==")]),
         (JObj [("validated_input",
                 JObj [("workflow", workflow); ("init_image", JStr "iVBORw==")])]).
  repeat split.
Defined.

(** A KSampler-only workflow, without and with an init image. *)
Lemma unpatched_workflow_is_submitted_unchanged_witness :
  submitted (fst (handler ready_world 5 plain_event))
  = [JObj [("prompt", ksampler_workflow)]]
  /\
  submitted (fst (handler ready_world 5 (image_event ksampler_workflow)))
  = [JObj [("prompt", ksampler_workflow)]].
Proof.
  split.
  - apply (proj1 (unpatched_workflow_is_submitted_unchanged
                    ready_world 5 plain_event _ _ plain_event_valid)).
    reflexivity.
  - apply (proj2 (unpatched_workflow_is_submitted_unchanged
                    ready_world 5 (image_event ksampler_workflow) _ _
                    (image_event_valid ksampler_workflow))
                 "iVBORw==" INIT_IMAGE_PATH
                 [("1", JObj [("class_type", JStr "KSampler"); ("inputs", JObj [])])]).
    + reflexivity.
    + reflexivity.
    + reflexivity.
    + repeat constructor.
Defined.

(** C10: when the payload has an [init_image] that is not a string, the
    handler ignores it: it goes straight on to the submission, so nothing
    is written to the input directory, no node is patched, the workflow is
    submitted unchanged, and the value raises no error. *)
Theorem non_string_init_image_is_ignored
        (w : World) (fuel : nat) (event payload workflow v : json) :
  valid_input w event payload workflow ->
  py_getitem payload (JStr "init_image") = Ok v ->
  is_str v = false ->
  handler_body w fuel event = run_workflow w fuel workflow /\
  file_writes (fst (handler w fuel event)) = [] /\
  submitted (fst (handler w fuel event)) = [JObj [("prompt", workflow)]] /\
  exists t,
    fst (handler w fuel event)
    = HttpPost (url_of "prompt") (JObj [("prompt", workflow)]) :: t.
Proof.
  intros Hv Hg Hs.
  destruct (handler_valid_trace w fuel event payload workflow [] workflow Hv
              (apply_init_image_not_str w payload workflow v Hg Hs))
    as (t & Ht & Hsub & Hw & Hbody).
  rewrite Ht. simpl. rewrite Hsub. unfold file_writes in *. simpl. rewrite Hw.
  repeat split.
  - rewrite Hbody. simpl. now destruct (run_workflow w fuel workflow).
  - now exists t.
Qed.

(** An input whose [init_image] is [None]. *)
Lemma non_string_init_image_is_ignored_witness :
  handler_body ready_world 5 null_image_event
  = run_workflow ready_world 5 two_loaders_workflow /\
  file_writes (fst (handler ready_world 5 null_image_event)) = [] /\
  submitted (fst (handler ready_world 5 null_image_event))
  = [JObj [("prompt", two_loaders_workflow)]] /\
  exists t,
    fst (handler ready_world 5 null_image_event)
    = HttpPost (url_of "prompt") (JObj [("prompt", two_loaders_workflow)]) :: t.
Proof.
  apply (non_string_init_image_is_ignored
           ready_world 5 null_image_event
           (JObj [("workflow", two_loaders_workflow); ("init_image", JNull)])
           two_loaders_workflow JNull).
  - split; [| split; reflexivity].
    exists (JObj [("workflow", two_loaders_workflow); ("init_image", JNull)]),
           (JObj [("validated_input",
                   JObj [("workflow", two_loaders_workflow); ("init_image", JNull)])]).
    repeat split.
  - reflexivity.
  - reflexivity.
Defined.

Lemma same_letter_lower (p c : ascii) :
  97 <= nat_of_ascii p <= 122 ->
  same_letter p c = Ascii.eqb (lower_ascii c) p.
Proof.
  intros Hp. unfold same_letter, lower_ascii.
  pose proof (nat_ascii_bounded c) as Hc.
  destruct ((65 <=? nat_of_ascii c) && (nat_of_ascii c <=? 90))%nat eqn:E.
  - apply andb_true_iff in E as [E1 E2].
    apply Nat.leb_le in E1. apply Nat.leb_le in E2.
    assert (Hne : Ascii.eqb c p = false).
    { apply Ascii.eqb_neq. intros ->. lia. }
    rewrite Hne. simpl.
    destruct (nat_of_ascii c + 32 =? nat_of_ascii p)%nat eqn:En.
    + apply Nat.eqb_eq in En. symmetry. apply Ascii.eqb_eq.
      rewrite En. apply ascii_nat_embedding.
    + apply Nat.eqb_neq in En. symmetry. apply Ascii.eqb_neq. intros H.
      apply En. rewrite <- H. rewrite nat_ascii_embedding; [reflexivity | lia].
  - assert (Hn : (nat_of_ascii c + 32 =? nat_of_ascii p)%nat = false).
    { apply Nat.eqb_neq. intros H.
      apply andb_false_iff in E as [E | E]; apply Nat.leb_gt in E; lia. }
    rewrite Hn. apply orb_false_r.
Qed.

(** Lower-casing and taking the prefix, as the handler does, is the
    case-insensitive prefix test. *)
Lemma prefix_lower (pattern s : string) :
  lower_case_word pattern = true ->
  String.prefix pattern (lower s) = starts_with_ignoring_case pattern s.
Proof.
  revert s. induction pattern as [| p pattern IH]; intros s Hw.
  - now destruct s.
  - cbn [lower_case_word] in Hw. apply andb_true_iff in Hw as [Hp Hw].
    apply andb_true_iff in Hp as [Hp1 Hp2].
    apply Nat.leb_le in Hp1. apply Nat.leb_le in Hp2.
    destruct s as [| c s]; [reflexivity |].
    cbn [lower String.prefix starts_with_ignoring_case].
    rewrite (same_letter_lower p c) by lia.
    destruct (ascii_dec p (lower_ascii c)) as [Heq | Hne].
    + rewrite <- Heq, Ascii.eqb_refl. simpl. now apply IH.
    + assert (H : Ascii.eqb (lower_ascii c) p = false)
        by (apply Ascii.eqb_neq; congruence).
      now rewrite H.
Qed.

(** On a graph node the handler's test says what [names_loadimage] says,
    and its patch is [with_image]. *)
Lemma graph_node_inv (image_path : string) (node : json) :
  graph_node node = true ->
  is_loadimage node = Ok (names_loadimage node) /\
  (exists inputs, py_getitem node (JStr "inputs") = Ok (JObj inputs)) /\
  set_image image_path node = with_image image_path node.
Proof.
  destruct node as [| | | | | | fields]; try discriminate.
  unfold graph_node, is_loadimage, names_loadimage, set_image, with_image.
  cbn [py_get py_getitem with_inputs].
  intros H. apply andb_true_iff in H as [Hc Hi].
  split; [| split].
  - destruct (assoc "class_type" fields) as [[] |]; try discriminate; cbn [rbind py_lower].
    + f_equal. now apply prefix_lower.
    + reflexivity.
  - destruct (assoc "inputs" fields) as [[] |]; try discriminate. now exists items.
  - destruct (assoc "inputs" fields) as [[] |]; try discriminate. reflexivity.
Qed.

Lemma graph_nodes_without_loadimage (nodes : list (string * json)) :
  Forall (fun kv => graph_node (snd kv) = true) nodes ->
  Forall (fun kv => names_loadimage (snd kv) = false) nodes ->
  Forall (fun kv => is_loadimage (snd kv) = Ok false) nodes.
Proof.
  intros Hg Hn. induction Hg as [| kv rest H _ IH]; [constructor |].
  inversion Hn as [| ? ? Hk Hrest]; subst. constructor; [| now apply IH].
  destruct (graph_node_inv "" (snd kv) H) as [-> _]. now rewrite Hk.
Qed.

(** A workflow with a loadimage node splits at its first one. *)
Lemma first_names_loadimage_split (nodes : list (string * json)) :
  Exists (fun kv => names_loadimage (snd kv) = true) nodes ->
  exists pre node_id node post,
    nodes = pre ++ (node_id, node) :: post /\
    Forall (fun kv => names_loadimage (snd kv) = false) pre /\
    names_loadimage node = true.
Proof.
  induction nodes as [| [id n] rest IH]; intros He; [inversion He |].
  destruct (names_loadimage n) eqn:Hn.
  - exists [], id, n, rest. auto.
  - assert (He' : Exists (fun kv => names_loadimage (snd kv) = true) rest).
    { inversion He as [? ? H0 | ? ? H0]; subst; [| exact H0].
      simpl in H0. congruence. }
    destruct (IH He') as (pre & id' & n' & post & -> & Hpre & Hm).
    exists ((id, n) :: pre), id', n', post. auto.
Qed.

(** C4: on a valid input whose workflow is made of graph nodes and has at
    least one node whose [class_type] case-insensitively starts with
    "loadimage", a saved [init_image] is written to [init.png] in the input
    directory, and the one workflow that is submitted is the input
    workflow with the [inputs.image] of exactly one node set to that path:
    the first such node in stored order, never a later one; the nodes
    before and after it are unchanged.  Which node that is, is read off
    the nodes' [class_type] fields ([names_loadimage]), not off the
    handler's test. *)
Theorem init_image_patches_first_loadimage
        (w : World) (fuel : nat) (event payload : json)
        (base64_str image_path : string) (nodes : list (string * json)) :
  valid_input w event payload (JObj nodes) ->
  py_getitem payload (JStr "init_image") = Ok (JStr base64_str) ->
  snd (save_init_image w base64_str "init.png") = Ret image_path ->
  Forall (fun kv => graph_node (snd kv) = true) nodes ->
  Exists (fun kv => names_loadimage (snd kv) = true) nodes ->
  image_path = INIT_IMAGE_PATH /\
  (exists data,
      b64decode w base64_str = Ok data /\
      file_writes (fst (handler w fuel event))
      = [Makedirs "/runpod-volume/ComfyUI/input";
         OpenWrite image_path; WriteBytes image_path data]) /\
  (exists pre node_id node post,
      nodes = pre ++ (node_id, node) :: post /\
      Forall (fun kv => names_loadimage (snd kv) = false) pre /\
      names_loadimage node = true) /\
  (forall pre node_id node post,
      nodes = pre ++ (node_id, node) :: post ->
      Forall (fun kv => names_loadimage (snd kv) = false) pre ->
      names_loadimage node = true ->
      submitted (fst (handler w fuel event))
      = [JObj [("prompt",
                JObj (pre ++ (node_id, with_image image_path node) :: post))]] /\
      (let? inputs := py_getitem (with_image image_path node) (JStr "inputs") in
       py_getitem inputs (JStr "image")) = Ok (JStr image_path)).
Proof.
  intros Hv Hg Hsave Hrec Hex.
  destruct (save_init_image_ret w base64_str image_path Hsave)
    as (-> & data & Hdec & Hrun).
  assert (Hwrites : forall workflow',
             apply_init_image w payload (JObj nodes)
             = ([Makedirs "/runpod-volume/ComfyUI/input";
                 OpenWrite INIT_IMAGE_PATH;
                 WriteBytes INIT_IMAGE_PATH data], Ret workflow') ->
             file_writes (fst (handler w fuel event))
             = [Makedirs "/runpod-volume/ComfyUI/input";
                OpenWrite INIT_IMAGE_PATH; WriteBytes INIT_IMAGE_PATH data] /\
             submitted (fst (handler w fuel event)) = [JObj [("prompt", workflow')]]).
  { intros workflow' Ha.
    destruct (handler_valid_trace w fuel event payload _ _ _ Hv Ha)
      as (t & Ht & Hs & Hw & _).
    rewrite Ht. unfold file_writes in *. simpl. now rewrite Hw, Hs. }
  assert (Hpatch : forall pre node_id node post,
             nodes = pre ++ (node_id, node) :: post ->
             Forall (fun kv => names_loadimage (snd kv) = false) pre ->
             names_loadimage node = true ->
             apply_init_image w payload (JObj nodes)
             = ([Makedirs "/runpod-volume/ComfyUI/input";
                 OpenWrite INIT_IMAGE_PATH;
                 WriteBytes INIT_IMAGE_PATH data],
                Ret (JObj (pre ++ (node_id, with_image INIT_IMAGE_PATH node) :: post)))
             /\ (let? inputs := py_getitem (with_image INIT_IMAGE_PATH node)
                                           (JStr "inputs") in
                 py_getitem inputs (JStr "image")) = Ok (JStr INIT_IMAGE_PATH)).
  { intros pre node_id node post -> Hpre Hm.
    apply Forall_app in Hrec as [Hrec_pre Hrec_node].
    inversion Hrec_node as [| ? ? Hnode _]; subst. simpl in Hnode.
    destruct (graph_node_inv INIT_IMAGE_PATH node Hnode) as (Ht & [inputs Hi] & Hset).
    rewrite Hm in Ht. rewrite <- Hset. split.
    - rewrite (apply_init_image_str w payload _ base64_str Hg), Hrun.
      rewrite bind_pair. cbv beta. simpl py_items. rewrite bind_lift_ok.
      rewrite (patch_first INIT_IMAGE_PATH node_id node inputs pre post
                 (graph_nodes_without_loadimage pre Hrec_pre Hpre) Ht Hi).
      now rewrite bind_lift_ok.
    - now apply set_image_sets with (inputs := inputs). }
  destruct (first_names_loadimage_split nodes Hex)
    as (pre0 & id0 & node0 & post0 & Hsplit & Hpre0 & Hm0).
  split; [reflexivity |]. split; [| split].
  - exists data. split; [exact Hdec |].
    destruct (Hpatch pre0 id0 node0 post0 Hsplit Hpre0 Hm0) as [Ha _].
    exact (proj1 (Hwrites _ Ha)).
  - exists pre0, id0, node0, post0. auto.
  - intros pre node_id node post Hs Hpre Hm.
    destruct (Hpatch pre node_id node post Hs Hpre Hm) as [Ha Hread].
    split; [exact (proj2 (Hwrites _ Ha)) | exact Hread].
Qed.

(** A workflow with a KSampler node, a LoadImage node and a LoadImageMask
    node after it: the LoadImage node, and only it, gets the path. *)
Lemma init_image_patches_first_loadimage_witness :
  submitted (fst (handler ready_world 5 (image_event two_loaders_workflow)))
  = [JObj [("prompt",
            JObj ([("1", JObj [("class_type", JStr "KSampler"); ("inputs", JObj [])])]
                  ++ ("2", JObj [("class_type", JStr "LoadImage");
                                 ("inputs", JObj [("image", JStr INIT_IMAGE_PATH)])])
                  :: [("3", JObj [("class_type", JStr "LoadImageMask");
                                  ("inputs", JObj [("image", JStr "b.png")])])]))]]
  /\
  (let? inputs := py_getitem (JObj [("class_type", JStr "LoadImage");
                                    ("inputs", JObj [("image", JStr INIT_IMAGE_PATH)])])
                             (JStr "inputs") in
   py_getitem inputs (JStr "image")) = Ok (JStr INIT_IMAGE_PATH).
Proof.
  apply (proj2 (proj2 (proj2
           (init_image_patches_first_loadimage
              ready_world 5 (image_event two_loaders_workflow)
              (JObj [("workflow", two_loaders_workflow);
                     ("init_image", JStr "iVBORw==")])
              "iVBORw==" INIT_IMAGE_PATH two_loaders_nodes
              (image_event_valid two_loaders_workflow)
              eq_refl eq_refl
              ltac:(repeat constructor)
              ltac:(right; left; reflexivity))))
           [("1", JObj [("class_type", JStr "KSampler"); ("inputs", JObj [])])]
           "2"
           (JObj [("class_type", JStr "LoadImage");
                  ("inputs", JObj [("image", JStr "a.png")])])
           [("3", JObj [("class_type", JStr "LoadImageMask");
                        ("inputs", JObj [("image", JStr "b.png")])])]).
  - reflexivity.
  - repeat constructor.
  - reflexivity.
Defined.

(** The patched workflow of the example: the second node, the first
    LoadImage node, now loads [init.png]; the LoadImageMask node after it
    keeps its image. *)
Example two_loaders_patched :
  submitted (fst (handler ready_world 5 (image_event two_loaders_workflow)))
  = [JObj [("prompt",
            JObj [("1", JObj [("class_type", JStr "KSampler"); ("inputs", JObj [])]);
                  ("2", JObj [("class_type", JStr "LoadImage");
                              ("inputs", JObj [("image", JStr INIT_IMAGE_PATH)])]);
                  ("3", JObj [("class_type", JStr "LoadImageMask");
                              ("inputs", JObj [("image", JStr "b.png")])])])]].
Proof. reflexivity. Qed.

(** The end-to-end scenario of the specification: no image node, the
    engine queues the prompt as "abc", the history is populated at the
    third request, and [out.png] is on the volume. *)
Example end_to_end :
  handler ready_world 5 plain_event
  = ([HttpPost "http://127.0.0.1:3000/prompt" (JObj [("prompt", ksampler_workflow)]);
      HttpGet "http://127.0.0.1:3000/history/abc"; Sleep 200;
      HttpGet "http://127.0.0.1:3000/history/abc"; Sleep 200;
      HttpGet "http://127.0.0.1:3000/history/abc";
      ReadFile "/runpod-volume/ComfyUI/output/out.png"],
     Ret (JObj [("images", JList [JStr "iVBORw=="])])).
Proof. reflexivity. Qed.

(** C6 at the example engine: two empty bodies, then the populated one. *)
Lemma poll_history_ends_exactly_when_populated_witness :
  poll_history ready_world (JStr "abc") 5 0
  = (polling_trace "http://127.0.0.1:3000/history/abc" 2,
     Ret (history_abc out_png_outputs)) /\
  fetched (polling_trace "http://127.0.0.1:3000/history/abc" 2)
  = repeat "http://127.0.0.1:3000/history/abc" (2 + 1) /\
  polling_trace "http://127.0.0.1:3000/history/abc" 2
  = waiting_trace "http://127.0.0.1:3000/history/abc" 2
    ++ [HttpGet "http://127.0.0.1:3000/history/abc"].
Proof.
  apply (proj1 (proj2 (proj2 (poll_history_ends_exactly_when_populated
                                ready_world (JStr "abc"))))
               2 {| status_code := 200;
                    body_json := Ok (history_abc out_png_outputs) |}
               (history_abc out_png_outputs) 0 5).
  - intros [| [| i]] Hi; try reflexivity. lia.
  - reflexivity.
  - reflexivity.
  - reflexivity.
  - reflexivity.
  - lia.
Defined.

(* ================================================================== *)
(** ** The readiness prober *)

Section Prober.

Variable probe : nat -> probe_answer.
Variable url : string.

Lemma wait_loop_failing (n fuel attempt retries : nat) :
  (forall j, j < n -> responded (probe (attempt + j)) = false) ->
  exists t,
    wait_loop probe url (n + fuel) attempt retries
    = (t ++ fst (wait_loop probe url fuel (attempt + n)
                           (retries + count_attempts is_request_exception probe attempt n)),
       snd (wait_loop probe url fuel (attempt + n)
                      (retries + count_attempts is_request_exception probe attempt n)))
    /\ count_effects is_probe t = n
    /\ count_effects is_nap t = n
    /\ count_effects is_error_log t = count_attempts is_other_exception probe attempt n
    /\ count_effects is_not_ready_log t
       = (retries + count_attempts is_request_exception probe attempt n) / 15
         - retries / 15.
Proof.
  revert attempt retries. induction n as [| n IH]; intros attempt retries H.
  - exists []. simpl. rewrite !Nat.add_0_r, Nat.sub_diag.
    now destruct (wait_loop probe url fuel attempt retries).
  - assert (H0 : responded (probe attempt) = false)
      by (specialize (H 0); rewrite Nat.add_0_r in H; apply H; lia).
    assert (Hrest : forall j, j < n -> responded (probe (S attempt + j)) = false)
      by (intros j Hj; replace (S attempt + j) with (attempt + S j) by lia;
          apply H; lia).
    cbn [Nat.add wait_loop count_attempts].
    destruct (probe attempt) as [status | | text] eqn:Hp; [discriminate | |].
    + destruct (IH (S attempt) (S retries) Hrest) as (t & Ht & Hc1 & Hc2 & Hc3 & Hc4).
      rewrite Ht. cbn [is_request_exception is_other_exception].
      replace (attempt + S n) with (S attempt + n) by lia.
      replace (retries + (1 + count_attempts is_request_exception probe (S attempt) n))
        with (S retries + count_attempts is_request_exception probe (S attempt) n) by lia.
      exists (Probe url
                :: (if (S retries mod 15 =? 0)%nat then [LogInfo NOT_READY] else [])
                ++ Nap 200 :: t).
      split; [simpl; now rewrite <- app_assoc |].
      unfold count_effects in *.
      assert (Hdiv : S retries / 15
                     = retries / 15 + (if (S retries mod 15 =? 0)%nat then 1 else 0)).
      { pose proof (Nat.div_mod_eq retries 15).
        pose proof (Nat.div_mod_eq (S retries) 15).
        pose proof (Nat.mod_upper_bound retries 15).
        pose proof (Nat.mod_upper_bound (S retries) 15).
        destruct (S retries mod 15 =? 0)%nat eqn:E;
          [apply Nat.eqb_eq in E | apply Nat.eqb_neq in E]; lia. }
      assert (Hmono : S retries / 15
                      <= (S retries
                          + count_attempts is_request_exception probe (S attempt) n) / 15)
        by (apply Nat.Div0.div_le_mono; lia).
      set (qa := (S retries
                  + count_attempts is_request_exception probe (S attempt) n) / 15) in *.
      set (qb := S retries / 15) in *. set (qc := retries / 15) in *.
      destruct (S retries mod 15 =? 0)%nat; simpl;
        rewrite ?Hc1, ?Hc2, ?Hc3, ?Hc4; repeat split; try reflexivity; lia.
    + destruct (IH (S attempt) retries Hrest) as (t & Ht & Hc1 & Hc2 & Hc3 & Hc4).
      rewrite Ht. cbn [is_request_exception is_other_exception].
      replace (attempt + S n) with (S attempt + n) by lia.
      rewrite Nat.add_0_l.
      exists (Probe url :: LogError ("Error: " ++ text)%string :: Nap 200 :: t).
      split; [reflexivity |].
      unfold count_effects in *. simpl.
      rewrite ?Hc1, ?Hc2, ?Hc3, ?Hc4. repeat split; try reflexivity.
Qed.

Lemma wait_loop_ret_inv (fuel attempt retries : nat) (t : list startup_effect) :
  wait_loop probe url fuel attempt retries = (t, Ret tt) ->
  exists n, n < fuel /\
            (forall j, j < n -> responded (probe (attempt + j)) = false) /\
            responded (probe (attempt + n)) = true.
Proof.
  revert attempt retries t. induction fuel as [| fuel IH]; intros attempt retries t H;
    [discriminate |].
  cbn [wait_loop] in H.
  destruct (probe attempt) as [status | | text] eqn:Hp.
  - exists 0. rewrite Nat.add_0_r, Hp. repeat split; [lia | intros j Hj; lia].
  - destruct (wait_loop probe url fuel (S attempt) (S retries)) as [t' o] eqn:Hw.
    injection H as _ ->.
    destruct (IH _ _ _ Hw) as (n & Hn & Hk & Hr).
    exists (S n). replace (attempt + S n) with (S attempt + n) by lia.
    repeat split; [lia | | exact Hr].
    intros [| j] Hj; [now rewrite Nat.add_0_r, Hp |].
    replace (attempt + S j) with (S attempt + j) by lia. apply Hk. lia.
  - destruct (wait_loop probe url fuel (S attempt) retries) as [t' o] eqn:Hw.
    injection H as _ ->.
    destruct (IH _ _ _ Hw) as (n & Hn & Hk & Hr).
    exists (S n). replace (attempt + S n) with (S attempt + n) by lia.
    repeat split; [lia | | exact Hr].
    intros [| j] Hj; [now rewrite Nat.add_0_r, Hp |].
    replace (attempt + S j) with (S attempt + j) by lia. apply Hk. lia.
Qed.

(** X1: [wait_for_service] returns exactly at the first request that is
    answered, whatever the status of the answer: after [n] failed requests
    and one answered request it has made [n + 1] requests and slept [n]
    times 0.2 s; and it returns only so. *)
Theorem wait_for_service_returns_at_first_answer :
  (forall n status fuel,
      (forall i, i < n -> responded (probe i) = false) ->
      probe n = Responded status ->
      n < fuel ->
      snd (wait_for_service probe url fuel) = Ret tt /\
      count_effects is_probe (fst (wait_for_service probe url fuel)) = n + 1 /\
      count_effects is_nap (fst (wait_for_service probe url fuel)) = n)
  /\
  (forall fuel,
      snd (wait_for_service probe url fuel) = Ret tt ->
      exists n, n < fuel /\ responded (probe n) = true /\
                forall i, i < n -> responded (probe i) = false).
Proof.
  split.
  - intros n status fuel Hfail Hn Hlt. unfold wait_for_service.
    replace fuel with (n + S (fuel - S n)) by lia.
    destruct (wait_loop_failing n (S (fuel - S n)) 0 0 Hfail)
      as (t & -> & Hc1 & Hc2 & _).
    cbn [wait_loop Nat.add]. rewrite Hn. simpl fst. simpl snd.
    unfold count_effects in *. rewrite !filter_app, !length_app, Hc1, Hc2.
    simpl. repeat split; lia.
  - intros fuel H. unfold wait_for_service in H.
    destruct (wait_loop probe url fuel 0 0) as [t o] eqn:Hw. simpl in H. subst o.
    destruct (wait_loop_ret_inv fuel 0 0 t Hw) as (n & Hn & Hk & Hr).
    exists n. auto.
Qed.

(** X2: while no request is answered [wait_for_service] keeps going, and
    after [fuel] failed requests it has slept [fuel] times, logged one
    error per exception that is no [RequestException], and logged
    "Service not ready yet. Retrying..." once per 15 [RequestException]s;
    the other exceptions do not count towards the 15. *)
Theorem wait_for_service_waits_and_logs (fuel : nat) :
  (forall i, i < fuel -> responded (probe i) = false) ->
  snd (wait_for_service probe url fuel) = Spin /\
  count_effects is_probe (fst (wait_for_service probe url fuel)) = fuel /\
  count_effects is_nap (fst (wait_for_service probe url fuel)) = fuel /\
  count_effects is_error_log (fst (wait_for_service probe url fuel))
  = count_attempts is_other_exception probe 0 fuel /\
  count_effects is_not_ready_log (fst (wait_for_service probe url fuel))
  = count_attempts is_request_exception probe 0 fuel / 15.
Proof.
  intros Hfail. unfold wait_for_service.
  destruct (wait_loop_failing fuel 0 0 0 Hfail) as (t & Ht & Hc1 & Hc2 & Hc3 & Hc4).
  rewrite Nat.add_0_r in Ht. cbn [wait_loop fst snd] in Ht.
  rewrite app_nil_r in Ht. rewrite Ht. cbn [fst snd].
  rewrite Hc1, Hc2, Hc3, Hc4.
  change (0 / 15) with 0. rewrite Nat.sub_0_r, Nat.add_0_l. auto.
Qed.

End Prober.

Lemma wait_for_service_returns_at_first_answer_witness :
  snd (wait_for_service (up_after 3 503%Z) "http://127.0.0.1:3000/system_stats" 10)
  = Ret tt /\
  count_effects is_probe
    (fst (wait_for_service (up_after 3 503%Z) "http://127.0.0.1:3000/system_stats" 10))
  = 3 + 1 /\
  count_effects is_nap
    (fst (wait_for_service (up_after 3 503%Z) "http://127.0.0.1:3000/system_stats" 10))
  = 3.
Proof.
  apply (proj1 (wait_for_service_returns_at_first_answer
                  (up_after 3 503%Z) "http://127.0.0.1:3000/system_stats") 3 503%Z 10).
  - intros [| [| [| i]]] Hi; try reflexivity. lia.
  - reflexivity.
  - lia.
Defined.

Lemma wait_for_service_waits_and_logs_witness :
  snd (wait_for_service (up_after 40 200%Z) "http://127.0.0.1:3000/system_stats" 31)
  = Spin /\
  count_effects is_probe
    (fst (wait_for_service (up_after 40 200%Z) "http://127.0.0.1:3000/system_stats" 31))
  = 31 /\
  count_effects is_nap
    (fst (wait_for_service (up_after 40 200%Z) "http://127.0.0.1:3000/system_stats" 31))
  = 31 /\
  count_effects is_error_log
    (fst (wait_for_service (up_after 40 200%Z) "http://127.0.0.1:3000/system_stats" 31))
  = count_attempts is_other_exception (up_after 40 200%Z) 0 31 /\
  count_effects is_not_ready_log
    (fst (wait_for_service (up_after 40 200%Z) "http://127.0.0.1:3000/system_stats" 31))
  = count_attempts is_request_exception (up_after 40 200%Z) 0 31 / 15.
Proof.
  apply (wait_for_service_waits_and_logs
           (up_after 40 200%Z) "http://127.0.0.1:3000/system_stats" 31).
  intros i Hi. unfold up_after.
  destruct (i <? 40)%nat eqn:E; [reflexivity |].
  apply Nat.ltb_ge in E. lia.
Defined.

(* ================================================================== *)
(** ** Failures before and at the submission *)

(** X3: when the validator reports errors, the handler returns them as
    they are under [error] and does nothing to the world: no file is
    written and no request is made. *)
Theorem validation_errors_are_returned_as_is
        (w : World) (fuel : nat) (event raw_input validated_input errors : json) :
  py_getitem event (JStr "input") = Ok raw_input ->
  validate w raw_input = Ok validated_input ->
  py_getitem validated_input (JStr "errors") = Ok errors ->
  handler w fuel event = ([], Ret (JObj [("error", errors)])).
Proof.
  intros Hi Hv He. rewrite handler_catches. unfold handler_body.
  rewrite Hi, bind_lift_ok, Hv, bind_lift_ok.
  rewrite (getitem_contains _ _ _ He), bind_lift_ok, He, bind_lift_ok.
  reflexivity.
Qed.

Lemma validation_errors_are_returned_as_is_witness :
  handler rejecting_validator_world 5 plain_event
  = ([], Ret (JObj [("error", JList [JStr "workflow is a required input."])])).
Proof.
  apply (validation_errors_are_returned_as_is
           rejecting_validator_world 5 plain_event
           (JObj [("workflow", ksampler_workflow)])
           (JObj [("errors", JList [JStr "workflow is a required input."])])).
  - reflexivity.
  - reflexivity.
  - reflexivity.
Defined.

(** X4: when reading [event['input']] raises (the key is missing, the
    event is no mapping) or the validator raises, the handler returns
    [{error: str(e)}] and does nothing to the world; for a missing key the
    message is [repr('input')]. *)
Theorem failure_before_validation_touches_nothing
        (w : World) (fuel : nat) (event : json) :
  (forall e,
      py_getitem event (JStr "input") = Err e ->
      handler w fuel event = ([], Ret (JObj [("error", JStr (str_exn w e))])))
  /\
  (forall items,
      event = JObj items ->
      assoc "input" items = None ->
      handler w fuel event
      = ([], Ret (JObj [("error", JStr (py_repr w (JStr "input")))])))
  /\
  (forall raw_input e,
      py_getitem event (JStr "input") = Ok raw_input ->
      validate w raw_input = Err e ->
      handler w fuel event = ([], Ret (JObj [("error", JStr (str_exn w e))]))).
Proof.
  assert (H1 : forall e,
             py_getitem event (JStr "input") = Err e ->
             handler w fuel event = ([], Ret (JObj [("error", JStr (str_exn w e))]))).
  { intros e He. rewrite handler_catches. unfold handler_body. now rewrite He. }
  split; [exact H1 | split].
  - intros items -> Hn.
    apply (H1 (KeyError (JStr "input"))). simpl. now rewrite Hn.
  - intros raw e Hi Hv. rewrite handler_catches. unfold handler_body.
    now rewrite Hi, bind_lift_ok, Hv.
Qed.

Lemma failure_before_validation_touches_nothing_witness :
  handler ready_world 5 (JObj [("id", JStr "job-1")])
  = ([], Ret (JObj [("error", JStr "'input'")])).
Proof.
  apply (proj1 (proj2 (failure_before_validation_touches_nothing
                         ready_world 5 (JObj [("id", JStr "job-1")])))
               [("id", JStr "job-1")]).
  - reflexivity.
  - reflexivity.
Defined.

(** X14: when the submission request raises, or its answer does not
    decode as JSON, the handler returns [{error: str(e)}] and never polls;
    the body is decoded before the status is looked at, so this holds for
    an answer of any status, 200 or not. *)
Theorem unreadable_submission_answer_is_an_error
        (w : World) (fuel : nat) (event : json)
        (url : string) (payload : json) (e : exn) :
  In (HttpPost url payload) (fst (handler w fuel event)) ->
  (session_post w url payload = Err e \/
   exists r, session_post w url payload = Ok r /\ body_json r = Err e) ->
  snd (handler w fuel event) = Ret (JObj [("error", JStr (str_exn w e))]) /\
  fetched (fst (handler w fuel event)) = [].
Proof.
  intros Hin Hfail.
  destruct (handler_submits_inv w fuel event url payload Hin)
    as (pl & wf & t1 & wf' & _ & Ha & -> & -> & Hbody).
  rewrite handler_outcome, handler_trace, Hbody.
  destruct (apply_init_image_quiet w pl wf) as [_ Hq]. rewrite Ha in Hq. simpl in Hq.
  destruct Hfail as [Hr | (r & Hr & Hb)].
  - rewrite (run_workflow_request_failed w fuel wf' e Hr). simpl.
    now rewrite fetched_app, Hq.
  - rewrite (run_workflow_undecodable w fuel wf' r e Hr Hb). simpl.
    now rewrite fetched_app, Hq.
Qed.

Lemma unreadable_submission_answer_is_an_error_witness :
  snd (handler gateway_error_world 5 plain_event)
  = Ret (JObj [("error", JStr "Expecting value: line 1 column 1 (char 0)")]) /\
  fetched (fst (handler gateway_error_world 5 plain_event)) = [].
Proof.
  apply (unreadable_submission_answer_is_an_error
           gateway_error_world 5 plain_event
           (url_of "prompt") (JObj [("prompt", ksampler_workflow)])
           (LibraryError "Expecting value: line 1 column 1 (char 0)")).
  - vm_compute. left. reflexivity.
  - right.
    exists {| status_code := 500;
              body_json := Err (LibraryError "Expecting value: line 1 column 1 (char 0)") |}.
    split; reflexivity.
Defined.

(* ================================================================== *)
(** ** The polling loop, again *)

Lemma answer_cases (r : result response) :
  loop_continues r = true
  \/ (exists e, loop_aborts r = Some e)
  \/ (exists resp b m, r = Ok resp /\ status_code resp = 200%Z /\
                       body_json resp = Ok b /\ py_len b = Ok (S m)).
Proof.
  unfold loop_continues, loop_aborts, history_ready.
  destruct r as [resp | e]; [| right; left; now exists e].
  destruct (body_json resp) as [b | e] eqn:Hb; [| right; left; now exists e].
  destruct (status_code resp =? 200)%Z eqn:Hs; [| now left].
  destruct (py_len b) as [[| m] | e] eqn:Hl.
  - now left.
  - right; right. exists resp, b, m. apply Z.eqb_eq in Hs. auto.
  - right; left. now exists e.
Qed.

Lemma poll_abort (w : World) (prompt_id : json) (fuel i : nat) (e : exn) :
  loop_aborts (session_get w (url_of (history_endpoint w prompt_id)) i) = Some e ->
  poll_history w prompt_id (S fuel) i
  = ([HttpGet (url_of (history_endpoint w prompt_id))], Raise e).
Proof.
  unfold loop_aborts. intros H. rewrite poll_history_S. unfold send_get_request.
  destruct (session_get w (url_of (history_endpoint w prompt_id)) i) as [r | e'].
  2:{ injection H as ->. reflexivity. }
  rewrite bind_perform_ok.
  destruct (body_json r) as [b | e'].
  2:{ injection H as ->. reflexivity. }
  rewrite bind_lift_ok.
  destruct (history_ready r b) as [ready | e']; [discriminate |].
  injection H as ->. reflexivity.
Qed.

(** X15: a history request that raises, an answer that does not decode,
    or a 200 answer whose body has no length ends the polling loop with
    that exception, after one request more than the answers that kept the
    loop going and with no sleep after it. *)
Theorem poll_history_aborts_on_failure
        (w : World) (prompt_id : json) (n fuel : nat) (e : exn) :
  (forall i, i < n ->
             loop_continues
               (session_get w (url_of (history_endpoint w prompt_id)) i) = true) ->
  loop_aborts (session_get w (url_of (history_endpoint w prompt_id)) n) = Some e ->
  n < fuel ->
  poll_history w prompt_id fuel 0
  = (polling_trace (url_of (history_endpoint w prompt_id)) n, Raise e).
Proof.
  intros Hk Ha Hn.
  replace fuel with (n + S (fuel - S n)) by lia.
  rewrite poll_waits by (intros j Hj; apply Hk; exact Hj).
  rewrite (poll_abort w prompt_id _ _ e) by exact Ha.
  simpl. now rewrite waiting_then_get.
Qed.

Lemma poll_history_aborts_on_failure_witness :
  poll_history null_history_world (JStr "abc") 5 0
  = (polling_trace (url_of (history_endpoint null_history_world (JStr "abc"))) 1,
     Raise TypeError).
Proof.
  apply (poll_history_aborts_on_failure null_history_world (JStr "abc") 1 5 TypeError).
  - intros [| i] Hi; [reflexivity | lia].
  - reflexivity.
  - lia.
Defined.

(* ================================================================== *)
(** ** The order of the handler's effects *)

Lemma run_workflow_trace_ordered (w : World) (fuel : nat) (workflow : json) :
  exists gs rs,
    fst (run_workflow w fuel workflow)
    = HttpPost (url_of "prompt") (JObj [("prompt", workflow)]) :: gs ++ rs /\
    Forall (fun ev => is_poll_effect ev = true) gs /\
    Forall (fun ev => is_read ev = true) rs.
Proof.
  destruct (session_post w (url_of "prompt") (JObj [("prompt", workflow)]))
    as [r | e] eqn:H.
  2:{ rewrite (run_workflow_request_failed w fuel workflow e H). now exists [], []. }
  destruct (body_json r) as [b | e] eqn:Hb.
  2:{ rewrite (run_workflow_undecodable w fuel workflow r e H Hb). now exists [], []. }
  destruct (Z.eq_dec (status_code r) 200) as [Hs | Hs].
  2:{ rewrite (run_workflow_rejected w fuel workflow r b H Hb Hs). now exists [], []. }
  destruct (py_get b "prompt_id" JNull) as [pid | e] eqn:Hg.
  2:{ rewrite (run_workflow_not_a_dict w fuel workflow r b e H Hb Hs Hg).
      now exists [], []. }
  destruct (py_truthy pid) eqn:Ht.
  2:{ rewrite (run_workflow_no_identifier w fuel workflow r b pid H Hb Hs Hg Ht).
      now exists [], []. }
  rewrite (run_workflow_polls w fuel workflow r b pid H Hb Hs Hg Ht).
  rewrite bind_pair. cbv beta.
  pose proof (poll_history_trace w pid fuel 0) as Hp.
  destruct (poll_history w pid fuel 0) as [tp [resp | e | ]]; simpl in Hp.
  - rewrite bind_pair. exists tp, (fst (collect_images w pid resp)).
    repeat split; [assumption | apply collect_images_trace].
  - exists tp, []. simpl. rewrite app_nil_r. auto.
  - exists tp, []. simpl. rewrite app_nil_r. auto.
Qed.

(** X5: whatever the input and the world, the handler's effects come in
    this order: first what it writes to the input directory, then at most
    one POST, to the prompt endpoint, then the history requests and their
    sleeps, then the reads of the output files.  It never posts twice. *)
Theorem handler_effects_are_ordered (w : World) (fuel : nat) (event : json) :
  exists ws ps gs rs,
    fst (handler w fuel event) = ws ++ ps ++ gs ++ rs /\
    Forall (fun ev => touches_input_dir ev = true) ws /\
    (ps = [] \/
     exists workflow', ps = [HttpPost (url_of "prompt") (JObj [("prompt", workflow')])]) /\
    Forall (fun ev => is_poll_effect ev = true) gs /\
    Forall (fun ev => is_read ev = true) rs.
Proof.
  rewrite handler_trace.
  destruct (handler_body_front w fuel event) as [[m H] | [[e H] | (pl & wf & Hv)]].
  - rewrite H. exists [], [], [], []. auto.
  - rewrite H. exists [], [], [], []. auto.
  - rewrite (handler_body_valid w fuel event pl wf Hv).
    pose proof (apply_init_image_trace w pl wf) as Hw.
    destruct (apply_init_image w pl wf) as [t1 [wf' | e | ]]; simpl in Hw.
    + rewrite bind_pair.
      destruct (run_workflow_trace_ordered w fuel wf') as (gs & rs & -> & Hg & Hr).
      exists t1, [HttpPost (url_of "prompt") (JObj [("prompt", wf')])], gs, rs.
      simpl. repeat split; eauto.
    + exists t1, [], [], []. simpl. rewrite app_nil_r. auto.
    + exists t1, [], [], []. simpl. rewrite app_nil_r. auto.
Qed.

Lemma poll_history_urls (w : World) (prompt_id : json) (fuel i : nat) :
  Forall (fun ev => ev = HttpGet (url_of (history_endpoint w prompt_id))
                    \/ ev = Sleep 200)
         (fst (poll_history w prompt_id fuel i)).
Proof.
  revert i. induction fuel as [| fuel IH]; intros i; [constructor |].
  rewrite poll_history_S. unfold send_get_request.
  apply bind_Forall; [apply perform_Forall; now left | intros r].
  apply bind_Forall; [apply lift_Forall | intros b].
  apply bind_Forall; [apply lift_Forall | intros ready].
  destruct ready; [apply ret_Forall |].
  apply bind_Forall; [apply perform_Forall; now right | intros _; apply IH].
Qed.

Lemma In_Forall_false (t : list effect) (p : effect -> bool) (ev : effect) :
  Forall (fun x => p x = true) t -> p ev = false -> ~ In ev t.
Proof.
  intros Hf Hp Hin. rewrite Forall_forall in Hf.
  specialize (Hf ev Hin). congruence.
Qed.

(** X6: the handler polls only after the engine has accepted the
    submission with status 200 and a job identifier, and every GET it
    makes goes to the history of that identifier,
    [BASE_URI/history/<prompt_id>]. *)
Theorem handler_polls_only_the_named_job
        (w : World) (fuel : nat) (event : json) (u : string) :
  In (HttpGet u) (fst (handler w fuel event)) ->
  exists payload r prompt_id,
    In (HttpPost (url_of "prompt") payload) (fst (handler w fuel event)) /\
    session_post w (url_of "prompt") payload = Ok r /\
    status_code r = 200%Z /\
    job_identifier r = Some prompt_id /\
    u = (BASE_URI ++ "/history/" ++ py_str w prompt_id)%string.
Proof.
  rewrite handler_trace. intros Hin.
  destruct (handler_body_front w fuel event) as [[m H] | [[e H] | (pl & wf & Hv)]];
    try (rewrite H in Hin; contradiction).
  rewrite (handler_body_valid w fuel event pl wf Hv) in *.
  pose proof (apply_init_image_trace w pl wf) as Hw.
  assert (Hnot : forall t, Forall (fun ev => touches_input_dir ev = true) t ->
                           ~ In (HttpGet u) t)
    by (intros t Ht; now apply (In_Forall_false t touches_input_dir)).
  destruct (apply_init_image w pl wf) as [t1 [wf' | e | ]]; simpl in Hw;
    try (simpl in Hin; now apply Hnot in Hin).
  rewrite bind_pair in *. simpl in Hin.
  apply in_app_or in Hin as [Hin | Hin]; [now apply Hnot in Hin |].
  set (p := JObj [("prompt", wf')]) in *.
  destruct (session_post w (url_of "prompt") p) as [r | e] eqn:H.
  2:{ rewrite (run_workflow_request_failed w fuel wf' e H) in Hin.
      destruct Hin as [Hin | []]. discriminate. }
  destruct (body_json r) as [b | e] eqn:Hb.
  2:{ rewrite (run_workflow_undecodable w fuel wf' r e H Hb) in Hin.
      destruct Hin as [Hin | []]. discriminate. }
  destruct (Z.eq_dec (status_code r) 200) as [Hs | Hs].
  2:{ rewrite (run_workflow_rejected w fuel wf' r b H Hb Hs) in Hin.
      destruct Hin as [Hin | []]. discriminate. }
  destruct (py_get b "prompt_id" JNull) as [pid | e] eqn:Hg.
  2:{ rewrite (run_workflow_not_a_dict w fuel wf' r b e H Hb Hs Hg) in Hin.
      destruct Hin as [Hin | []]. discriminate. }
  destruct (py_truthy pid) eqn:Ht.
  2:{ rewrite (run_workflow_no_identifier w fuel wf' r b pid H Hb Hs Hg Ht) in Hin.
      destruct Hin as [Hin | []]. discriminate. }
  exists p, r, pid. repeat split; try assumption.
  - apply in_or_app. right.
    destruct (run_workflow_trace w fuel wf') as (t & -> & _). now left.
  - unfold job_identifier. now rewrite Hb, Hg, Ht.
  - rewrite (run_workflow_polls w fuel wf' r b pid H Hb Hs Hg Ht) in Hin.
    rewrite bind_pair in Hin. cbv beta in Hin. simpl in Hin.
    destruct Hin as [Hin | Hin]; [discriminate |].
    pose proof (poll_history_urls w pid fuel 0) as Hp.
    destruct (poll_history w pid fuel 0) as [tp [resp | e | ]]; simpl in Hp, Hin.
    + pose proof (collect_images_trace w pid resp) as Hc.
      destruct (collect_images w pid resp) as [tc oc]. simpl in Hin, Hc.
      apply in_app_or in Hin as [Hin | Hin].
      * rewrite Forall_forall in Hp. destruct (Hp _ Hin) as [Heq | Heq];
          [now injection Heq | discriminate].
      * now apply (In_Forall_false tc is_read) in Hin.
    + rewrite Forall_forall in Hp. destruct (Hp _ Hin) as [Heq | Heq];
        [now injection Heq | discriminate].
    + rewrite Forall_forall in Hp. destruct (Hp _ Hin) as [Heq | Heq];
        [now injection Heq | discriminate].
Qed.

Lemma handler_polls_only_the_named_job_witness :
  exists payload r prompt_id,
    In (HttpPost (url_of "prompt") payload) (fst (handler ready_world 5 plain_event)) /\
    session_post ready_world (url_of "prompt") payload = Ok r /\
    status_code r = 200%Z /\
    job_identifier r = Some prompt_id /\
    "http://127.0.0.1:3000/history/abc"
    = (BASE_URI ++ "/history/" ++ py_str ready_world prompt_id)%string.
Proof.
  apply (handler_polls_only_the_named_job
           ready_world 5 plain_event "http://127.0.0.1:3000/history/abc").
  vm_compute. right. left. reflexivity.
Defined.

(* ================================================================== *)
(** ** The init image when something is wrong *)

(** X7: when the [init_image] string does not decode as base64, the
    handler returns [{error: str(e)}] and submits nothing; by then it has
    created the input directory and opened [init.png] for writing (the
    file is opened before the string is decoded), and has written no
    bytes to it. *)
Theorem undecodable_init_image_fails_after_open
        (w : World) (fuel : nat) (event payload workflow : json)
        (base64_str : string) (e : exn) :
  valid_input w event payload workflow ->
  py_getitem payload (JStr "init_image") = Ok (JStr base64_str) ->
  os_makedirs w "/runpod-volume/ComfyUI/input" = Ok tt ->
  open_wb w INIT_IMAGE_PATH = Ok tt ->
  b64decode w base64_str = Err e ->
  handler w fuel event
  = ([Makedirs "/runpod-volume/ComfyUI/input"; OpenWrite INIT_IMAGE_PATH],
     Ret (JObj [("error", JStr (str_exn w e))])).
Proof.
  intros Hv Hg Hm Ho Hd.
  rewrite handler_catches, (handler_body_valid w fuel event _ _ Hv).
  rewrite (apply_init_image_str w payload workflow base64_str Hg).
  unfold save_init_image.
  change (path_join (VOLUME_MOUNT_PATH ++ "/ComfyUI/input") "init.png")
    with INIT_IMAGE_PATH.
  change (VOLUME_MOUNT_PATH ++ "/ComfyUI/input")%string
    with "/runpod-volume/ComfyUI/input".
  rewrite Hm, bind_perform_ok, Ho, bind_perform_ok, Hd. reflexivity.
Qed.

Lemma undecodable_init_image_fails_after_open_witness :
  handler ready_world 5 bad_image_event
  = ([Makedirs "/runpod-volume/ComfyUI/input"; OpenWrite INIT_IMAGE_PATH],
     Ret (JObj [("error", JStr (str_exn ready_world (LibraryError "Incorrect padding")))])).
Proof.
  apply (undecodable_init_image_fails_after_open
           ready_world 5 bad_image_event
           (JObj [("workflow", two_loaders_workflow); ("init_image", JStr "iVBORw")])
           two_loaders_workflow "iVBORw" (LibraryError "Incorrect padding")).
  - split; [| split; reflexivity].
    exists (JObj [("workflow", two_loaders_workflow); ("init_image", JStr "iVBORw")]),
           (JObj [("validated_input",
                   JObj [("workflow", two_loaders_workflow);
                         ("init_image", JStr "iVBORw")])]).
    repeat split.
  - reflexivity.
  - reflexivity.
  - reflexivity.
  - reflexivity.
Defined.

Lemma bind_assoc {A B C : Type} (m : M A) (k : A -> M B) (g : B -> M C) :
  bind (bind m k) g = bind m (fun x => bind (k x) g).
Proof.
  destruct m as [t [a | e | ]]; simpl; try reflexivity.
  destruct (k a) as [t' [b | e | ]]; simpl; try reflexivity.
  destruct (g b). now rewrite app_assoc.
Qed.

(** What the handler does once the image is saved, in terms of the patch. *)
Lemma handler_after_save (w : World) (fuel : nat) (event payload workflow : json)
      (base64_str image_path : string) :
  valid_input w event payload workflow ->
  py_getitem payload (JStr "init_image") = Ok (JStr base64_str) ->
  snd (save_init_image w base64_str "init.png") = Ret image_path ->
  handler_body w fuel event
  = bind (fst (save_init_image w base64_str "init.png"), Ret tt) (fun _ =>
      nodes <- lift (py_items workflow) ;;
      nodes' <- lift (patch_first_loadimage INIT_IMAGE_PATH nodes) ;;
      run_workflow w fuel (JObj nodes')).
Proof.
  intros Hv Hg Hs.
  rewrite (handler_body_valid w fuel event _ _ Hv).
  rewrite (apply_init_image_str w payload workflow base64_str Hg).
  destruct (save_init_image_ret w base64_str image_path Hs) as (_ & data & _ & ->).
  cbn [fst snd]. rewrite bind_assoc, !bind_pair. cbv beta.
  assert (Heq : bind (nodes <- lift (py_items workflow) ;;
                      nodes' <- lift (patch_first_loadimage INIT_IMAGE_PATH nodes) ;;
                      ret (JObj nodes'))
                     (run_workflow w fuel)
                = (nodes <- lift (py_items workflow) ;;
                   nodes' <- lift (patch_first_loadimage INIT_IMAGE_PATH nodes) ;;
                   run_workflow w fuel (JObj nodes'))).
  { destruct (py_items workflow) as [nodes | e]; [| reflexivity].
    rewrite !bind_lift_ok.
    destruct (patch_first_loadimage INIT_IMAGE_PATH nodes) as [nodes' | e];
      [| reflexivity].
    now rewrite !bind_lift_ok, bind_ret. }
  now rewrite Heq.
Qed.

(** X8: with an [init_image], a workflow that is no mapping is an error:
    the image is saved first, then [workflow.items()] raises, the handler
    returns [{error: ...}] with the interpreter's text and submits
    nothing.  (Without an [init_image] the same workflow is posted as it
    is.) *)
Theorem image_with_non_mapping_workflow_fails
        (w : World) (fuel : nat) (event payload workflow : json)
        (base64_str image_path : string) :
  valid_input w event payload workflow ->
  py_getitem payload (JStr "init_image") = Ok (JStr base64_str) ->
  snd (save_init_image w base64_str "init.png") = Ret image_path ->
  is_dict workflow = false ->
  handler w fuel event
  = (fst (save_init_image w base64_str "init.png"),
     Ret (JObj [("error", JStr (fault_text w AttributeError))])).
Proof.
  intros Hv Hg Hs Hd.
  rewrite handler_catches, (handler_after_save w fuel event _ _ _ _ Hv Hg Hs).
  rewrite bind_pair. cbv beta.
  destruct workflow; try discriminate; simpl; now rewrite app_nil_r.
Qed.

Lemma image_with_non_mapping_workflow_fails_witness :
  handler ready_world 5 (image_event (JList []))
  = (fst (save_init_image ready_world "iVBORw==" "init.png"),
     Ret (JObj [("error", JStr (fault_text ready_world AttributeError))])).
Proof.
  apply (image_with_non_mapping_workflow_fails
           ready_world 5 (image_event (JList []))
           (JObj [("workflow", JList []); ("init_image", JStr "iVBORw==")])
           (JList []) "iVBORw==" INIT_IMAGE_PATH (image_event_valid (JList []))).
  - reflexivity.
  - reflexivity.
  - reflexivity.
Defined.

Lemma patch_skips (image_path : string) (pre rest : list (string * json)) :
  Forall (fun kv => is_loadimage (snd kv) = Ok false) pre ->
  patch_first_loadimage image_path (pre ++ rest)
  = (let? rest' := patch_first_loadimage image_path rest in Ok (pre ++ rest')).
Proof.
  induction 1 as [| [id n] pre H _ IH].
  - simpl. now destruct (patch_first_loadimage image_path rest).
  - simpl in *. rewrite H, IH. simpl.
    now destruct (patch_first_loadimage image_path rest).
Qed.

(** X9: when the first node whose [class_type] starts with "loadimage" has
    no [inputs] key, the handler returns [{error: repr('inputs')}]: the
    image has been saved, no node is changed and nothing is submitted. *)
Theorem loadimage_without_inputs_fails
        (w : World) (fuel : nat) (event payload : json)
        (base64_str image_path : string)
        (pre post : list (string * json)) (node_id : string)
        (fields : list (string * json)) :
  valid_input w event payload (JObj (pre ++ (node_id, JObj fields) :: post)) ->
  py_getitem payload (JStr "init_image") = Ok (JStr base64_str) ->
  snd (save_init_image w base64_str "init.png") = Ret image_path ->
  Forall (fun kv => is_loadimage (snd kv) = Ok false) pre ->
  is_loadimage (JObj fields) = Ok true ->
  assoc "inputs" fields = None ->
  handler w fuel event
  = (fst (save_init_image w base64_str "init.png"),
     Ret (JObj [("error", JStr (py_repr w (JStr "inputs")))])).
Proof.
  intros Hv Hg Hs Hpre Hm Hn.
  rewrite handler_catches, (handler_after_save w fuel event _ _ _ _ Hv Hg Hs).
  rewrite bind_pair. cbv beta. simpl py_items. rewrite bind_lift_ok.
  rewrite (patch_skips INIT_IMAGE_PATH pre _ Hpre).
  cbn [patch_first_loadimage]. rewrite Hm. cbn [rbind].
  simpl py_getitem. rewrite Hn. simpl. now rewrite app_nil_r.
Qed.

Lemma loadimage_without_inputs_fails_witness :
  handler ready_world 5 (image_event (JObj bare_loader_nodes))
  = (fst (save_init_image ready_world "iVBORw==" "init.png"),
     Ret (JObj [("error", JStr (py_repr ready_world (JStr "inputs")))])).
Proof.
  apply (loadimage_without_inputs_fails
           ready_world 5 (image_event (JObj bare_loader_nodes))
           (JObj [("workflow", JObj bare_loader_nodes); ("init_image", JStr "iVBORw==")])
           "iVBORw==" INIT_IMAGE_PATH
           [("1", JObj [("class_type", JStr "KSampler"); ("inputs", JObj [])])]
           [] "2" [("class_type", JStr "LoadImage")]
           (image_event_valid (JObj bare_loader_nodes))).
  - reflexivity.
  - reflexivity.
  - repeat constructor.
  - reflexivity.
  - reflexivity.
Defined.

(** X10: the nodes after the first loadimage node are not looked at: they
    may be any values (no mapping, a [class_type] that is no string, no
    [inputs]) and are submitted as they are, next to the patched node. *)
Theorem nodes_after_the_patched_one_are_not_inspected
        (w : World) (fuel : nat) (event payload : json)
        (base64_str image_path : string)
        (pre post : list (string * json)) (node_id : string) (node : json)
        (inputs : list (string * json)) :
  valid_input w event payload (JObj (pre ++ (node_id, node) :: post)) ->
  py_getitem payload (JStr "init_image") = Ok (JStr base64_str) ->
  snd (save_init_image w base64_str "init.png") = Ret image_path ->
  Forall (fun kv => is_loadimage (snd kv) = Ok false) pre ->
  is_loadimage node = Ok true ->
  py_getitem node (JStr "inputs") = Ok (JObj inputs) ->
  submitted (fst (handler w fuel event))
  = [JObj [("prompt",
            JObj (pre ++ (node_id, set_image INIT_IMAGE_PATH node) :: post))]].
Proof.
  intros Hv Hg Hs Hpre Hm Hi.
  rewrite handler_trace, (handler_after_save w fuel event _ _ _ _ Hv Hg Hs).
  rewrite bind_pair. cbv beta. simpl py_items. rewrite bind_lift_ok.
  rewrite (patch_first INIT_IMAGE_PATH node_id node inputs pre post Hpre Hm Hi).
  rewrite bind_lift_ok. cbn [fst].
  rewrite submitted_app.
  pose proof (save_init_image_trace w base64_str "init.png") as Hw.
  rewrite (submitted_nil (fst (save_init_image w base64_str "init.png"))).
  2:{ eapply Forall_impl; [| exact Hw]. intros [] Hev; (reflexivity || discriminate). }
  destruct (run_workflow_trace w fuel
              (JObj (pre ++ (node_id, set_image INIT_IMAGE_PATH node) :: post)))
    as (t & -> & Hf).
  simpl. now rewrite (proj1 (after_post_quiet t Hf)).
Qed.

Lemma nodes_after_the_patched_one_are_not_inspected_witness :
  submitted (fst (handler ready_world 5 (image_event (JObj loader_then_junk_nodes))))
  = [JObj [("prompt",
            JObj ([] ++ ("2", set_image INIT_IMAGE_PATH
                                (JObj [("class_type", JStr "LOADIMAGE");
                                       ("inputs", JObj [])]))
                     :: [("3", JInt 7); ("4", JObj [("class_type", JNull)])]))]].
Proof.
  apply (nodes_after_the_patched_one_are_not_inspected
           ready_world 5 (image_event (JObj loader_then_junk_nodes))
           (JObj [("workflow", JObj loader_then_junk_nodes);
                  ("init_image", JStr "iVBORw==")])
           "iVBORw==" INIT_IMAGE_PATH
           [] [("3", JInt 7); ("4", JObj [("class_type", JNull)])]
           "2" (JObj [("class_type", JStr "LOADIMAGE"); ("inputs", JObj [])]) []
           (image_event_valid (JObj loader_then_junk_nodes))).
  - reflexivity.
  - reflexivity.
  - constructor.
  - reflexivity.
  - reflexivity.
Defined.

(* ================================================================== *)
(** ** Reading and encoding the output files *)

Lemma read_images_step (w : World) (x : json) (rest : list json)
      (path : string) (data : bytes) :
  image_path_of w x = Ok path ->
  read_rb w path = Ok data ->
  read_images w (x :: rest)
  = (ReadFile path :: fst (read_images w rest),
     match snd (read_images w rest) with
     | Ret images => Ret (JStr (b64encode w data) :: images)
     | Raise e => Raise e
     | Spin => Spin
     end).
Proof.
  unfold image_path_of. intros Hp Hr. cbn [read_images].
  destruct (py_getitem x (JStr "filename")) as [filename | e]; [| discriminate].
  assert (Hpath : (VOLUME_MOUNT_PATH ++ "/ComfyUI/output/" ++ py_str w filename)%string
                  = path) by (now injection Hp).
  rewrite bind_lift_ok. cbv zeta. rewrite Hpath, Hr, bind_perform_ok.
  destruct (read_images w rest) as [t [images | e | ]]; simpl;
    rewrite ?app_nil_r; reflexivity.
Qed.

(** X11: when every entry of the image list names a file that can be
    read, [read_images] reads the files in the order of the list, each
    from [/runpod-volume/ComfyUI/output/<filename>], and returns their
    base64 encodings in the same order, one per entry. *)
Theorem read_images_encodes_in_order
        (w : World) (image_filenames : list json) (files : list (string * bytes)) :
  Forall2 (fun x file => image_path_of w x = Ok (fst file) /\
                         read_rb w (fst file) = Ok (snd file))
          image_filenames files ->
  read_images w image_filenames
  = (map (fun file => ReadFile (fst file)) files,
     Ret (map (fun file => JStr (b64encode w (snd file))) files)).
Proof.
  induction 1 as [| x [path data] names files [Hp Hr] _ IH]; [reflexivity |].
  simpl in Hp, Hr. rewrite (read_images_step w x names path data Hp Hr), IH.
  reflexivity.
Qed.

Lemma read_images_encodes_in_order_witness :
  read_images ready_world [JObj [("filename", JStr "out.png"); ("type", JStr "output")];
                           JObj [("filename", JStr "out.png")]]
  = (map (fun file => ReadFile (fst file))
         [("/runpod-volume/ComfyUI/output/out.png", PNG_MAGIC);
          ("/runpod-volume/ComfyUI/output/out.png", PNG_MAGIC)],
     Ret (map (fun file => JStr (b64encode ready_world (snd file)))
              [("/runpod-volume/ComfyUI/output/out.png", PNG_MAGIC);
               ("/runpod-volume/ComfyUI/output/out.png", PNG_MAGIC)])).
Proof.
  apply (read_images_encodes_in_order ready_world).
  repeat constructor.
Defined.

(** X12: [read_images] stops at the first file it cannot read: the files
    before it have been read, the files after it are not touched, and the
    exception leaves no partial list of images. *)
Theorem read_images_stops_at_first_unreadable
        (w : World) (pre : list json) (files : list (string * bytes))
        (x : json) (path : string) (e : exn) (post : list json) :
  Forall2 (fun x file => image_path_of w x = Ok (fst file) /\
                         read_rb w (fst file) = Ok (snd file))
          pre files ->
  image_path_of w x = Ok path ->
  read_rb w path = Err e ->
  read_images w (pre ++ x :: post)
  = (map (fun file => ReadFile (fst file)) files ++ [ReadFile path], Raise e).
Proof.
  intros Hpre Hp Hr.
  induction Hpre as [| y [p d] names files [Hyp Hyr] _ IH].
  - unfold image_path_of in Hp. cbn [app read_images map].
    destruct (py_getitem x (JStr "filename")) as [filename | e']; [| discriminate].
    assert (Hpath : (VOLUME_MOUNT_PATH ++ "/ComfyUI/output/" ++ py_str w filename)%string
                    = path) by (now injection Hp).
    rewrite bind_lift_ok. cbv zeta. now rewrite Hpath, Hr.
  - simpl in Hyp, Hyr. cbn [app].
    rewrite (read_images_step w y (names ++ x :: post) p d Hyp Hyr), IH.
    reflexivity.
Qed.

Lemma read_images_stops_at_first_unreadable_witness :
  read_images ready_world ([JObj [("filename", JStr "out.png")]]
                           ++ JObj [("filename", JStr "gone.png")]
                           :: [JObj [("filename", JStr "out.png")]])
  = (map (fun file => ReadFile (fst file))
         [("/runpod-volume/ComfyUI/output/out.png", PNG_MAGIC)]
     ++ [ReadFile "/runpod-volume/ComfyUI/output/gone.png"],
     Raise (LibraryError "[Errno 2] No such file or directory")).
Proof.
  apply (read_images_stops_at_first_unreadable ready_world).
  - repeat constructor.
  - reflexivity.
  - reflexivity.
Defined.

(** X13: the whole way through: when the engine accepts the submission
    and names a job, the polling loop ends with a body whose entry for
    the job has non-empty [outputs], and every file of the first image
    list can be read, the handler returns [{images: [...]}] with the
    base64 encodings of these files, in the order of the list. *)
Theorem populated_history_gives_images
        (w : World) (fuel : nat) (event : json)
        (url : string) (payload : json) (r : response)
        (prompt_id : json) (tp : list effect) (resp_json entry outputs : json)
        (image_filenames : list json) (files : list (string * bytes)) :
  In (HttpPost url payload) (fst (handler w fuel event)) ->
  session_post w url payload = Ok r ->
  status_code r = 200%Z ->
  job_identifier r = Some prompt_id ->
  poll_history w prompt_id fuel 0 = (tp, Ret resp_json) ->
  py_getitem resp_json prompt_id = Ok entry ->
  py_getitem entry (JStr "outputs") = Ok outputs ->
  py_truthy outputs = true ->
  get_filenames outputs = Ok image_filenames ->
  Forall2 (fun x file => image_path_of w x = Ok (fst file) /\
                         read_rb w (fst file) = Ok (snd file))
          image_filenames files ->
  snd (handler w fuel event)
  = Ret (JObj [("images",
                JList (map (fun file => JStr (b64encode w (snd file))) files))]).
Proof.
  intros Hin Hr Hs Hj Hp He Ho Ht Hf Hfiles.
  destruct (handler_submits_inv w fuel event url payload Hin)
    as (pl & wf & t1 & wf' & _ & _ & -> & -> & Hbody).
  destruct (job_identifier_some r prompt_id Hj) as (b & Hb & Hg & Hpid).
  rewrite handler_outcome, Hbody.
  rewrite (run_workflow_polls w fuel wf' r b prompt_id Hr Hb Hs Hg Hpid).
  rewrite bind_pair. cbv beta. rewrite Hp, bind_pair.
  unfold collect_images.
  rewrite He, bind_lift_ok, Ho, bind_lift_ok, Ht. cbn [negb].
  rewrite Hf, bind_lift_ok.
  now rewrite (read_images_encodes_in_order w image_filenames files Hfiles).
Qed.

Lemma populated_history_gives_images_witness :
  snd (handler ready_world 5 plain_event)
  = Ret (JObj [("images",
                JList (map (fun file => JStr (b64encode ready_world (snd file)))
                           [("/runpod-volume/ComfyUI/output/out.png", PNG_MAGIC)]))]).
Proof.
  apply (populated_history_gives_images
           ready_world 5 plain_event
           (url_of "prompt") (JObj [("prompt", ksampler_workflow)])
           {| status_code := 200; body_json := Ok (JObj [("prompt_id", JStr "abc")]) |}
           (JStr "abc")
           (polling_trace "http://127.0.0.1:3000/history/abc" 2)
           (history_abc out_png_outputs)
           (JObj [("outputs", out_png_outputs)])
           out_png_outputs
           [JObj [("filename", JStr "out.png")]]).
  - vm_compute. left. reflexivity.
  - reflexivity.
  - reflexivity.
  - reflexivity.
  - reflexivity.
  - reflexivity.
  - reflexivity.
  - reflexivity.
  - reflexivity.
  - repeat constructor.
Defined.

(* ================================================================== *)
(** ** The filename extractor on any value *)

Lemma first_images_sound (entries : list (string * json)) (names : list json) :
  first_images entries = Ok names ->
  names = [] \/
  exists key value,
    In (key, value) entries /\ py_getitem value (JStr "images") = Ok (JList names).
Proof.
  induction entries as [| [key value] rest IH]; cbn [first_images].
  - intros H. injection H as <-. now left.
  - assert (Hrest : first_images rest = Ok names ->
                    names = [] \/
                    exists k v, In (k, v) ((key, value) :: rest) /\
                                py_getitem v (JStr "images") = Ok (JList names)).
    { intros H. destruct (IH H) as [-> | (k & v & Hin & Hg)]; [now left |].
      right. exists k, v. split; [now right | exact Hg]. }
    destruct (py_contains "images" value) as [[] | e]; cbn [rbind];
      [| exact Hrest | discriminate].
    destruct (py_getitem value (JStr "images")) as [images | e] eqn:Hg; cbn [rbind];
      [| discriminate].
    destruct images; try exact Hrest.
    intros H. injection H as <-. right. exists key, value. split; [now left | exact Hg].
Qed.

(** X16: whatever value [get_filenames] is given, a list it returns is
    either empty or the [images] list of one of the entries of the
    outputs; it never makes up or merges filenames. *)
Theorem get_filenames_returns_an_entry_list (output : json) (names : list json) :
  get_filenames output = Ok names ->
  names = [] \/
  exists entries key value,
    output = JObj entries /\ In (key, value) entries /\
    py_getitem value (JStr "images") = Ok (JList names).
Proof.
  unfold get_filenames. destruct output; try discriminate. cbn [py_items rbind].
  intros H. destruct (first_images_sound items names H) as [-> | (k & v & Hin & Hg)];
    [now left |].
  right. exists items, k, v. auto.
Qed.

Lemma get_filenames_returns_an_entry_list_witness :
  [JObj [("filename", JStr "out.png")]] = [] \/
  exists entries key value,
    JObj text_then_image_outputs = JObj entries /\ In (key, value) entries /\
    py_getitem value (JStr "images") = Ok (JList [JObj [("filename", JStr "out.png")]]).
Proof.
  apply (get_filenames_returns_an_entry_list (JObj text_then_image_outputs)).
  reflexivity.
Defined.

(** X17: [get_filenames] on what is no well-formed outputs mapping: a
    value that is no mapping raises [AttributeError]; an entry that is
    [None], a boolean or a number, or a string or list that contains
    ["images"], raises [TypeError] when the scan reaches it; a string or
    list that does not contain ["images"] is passed over. *)
Theorem get_filenames_on_malformed_outputs :
  (forall output, is_dict output = false -> get_filenames output = Err AttributeError)
  /\
  (forall pre key value post,
      Forall (fun kv => is_dict (snd kv) = true) pre ->
      Forall (fun kv => has_images_list (snd kv) = false) pre ->
      breaks_scan value = true ->
      get_filenames (JObj (pre ++ (key, value) :: post)) = Err TypeError)
  /\
  (forall key value rest,
      is_dict value = false ->
      breaks_scan value = false ->
      get_filenames (JObj ((key, value) :: rest)) = get_filenames (JObj rest)).
Proof.
  split; [| split].
  - intros output H. now destruct output.
  - intros pre key value post Hd Hn Hb.
    unfold get_filenames. cbn [py_items rbind].
    rewrite first_images_skip_all by assumption.
    destruct value; try discriminate; try reflexivity;
      cbn [first_images py_contains rbind]; simpl in Hb; now rewrite Hb.
  - intros key value rest Hd Hb.
    unfold get_filenames. cbn [py_items rbind].
    destruct value; try discriminate;
      cbn [first_images py_contains rbind]; simpl in Hb; now rewrite Hb.
Qed.

Lemma get_filenames_on_malformed_outputs_witness :
  get_filenames (JList [JObj [("images", JList [])]]) = Err AttributeError
  /\ get_filenames (JObj ([("7", JObj [("text", JList [JStr "done"])])]
                          ++ ("8", JNull) :: text_then_image_outputs))
     = Err TypeError
  /\ get_filenames (JObj (("6", JStr "skipped") :: text_then_image_outputs))
     = get_filenames (JObj text_then_image_outputs).
Proof.
  destruct get_filenames_on_malformed_outputs as (H1 & H2 & H3).
  split; [| split].
  - apply H1. reflexivity.
  - apply H2; [repeat constructor | repeat constructor | reflexivity].
  - apply H3; reflexivity.
Defined.

(* ================================================================== *)
(** ** What the handler writes *)

Lemma save_init_image_effects (w : World) (base64_str : string) (ev : effect) :
  In ev (fst (save_init_image w base64_str "init.png")) ->
  ev = Makedirs "/runpod-volume/ComfyUI/input" \/
  ev = OpenWrite INIT_IMAGE_PATH \/
  exists data, b64decode w base64_str = Ok data /\ ev = WriteBytes INIT_IMAGE_PATH data.
Proof.
  unfold save_init_image.
  change (path_join (VOLUME_MOUNT_PATH ++ "/ComfyUI/input") "init.png")
    with INIT_IMAGE_PATH.
  change (VOLUME_MOUNT_PATH ++ "/ComfyUI/input")%string
    with "/runpod-volume/ComfyUI/input".
  destruct (os_makedirs w _) as [[] | e].
  2:{ simpl. intros [<- | []]. now left. }
  rewrite bind_perform_ok.
  destruct (open_wb w _) as [[] | e].
  2:{ simpl. intros [<- | [<- | []]]; auto. }
  rewrite bind_perform_ok.
  destruct (b64decode w base64_str) as [data | e].
  2:{ simpl. intros [<- | [<- | []]]; auto. }
  rewrite bind_lift_ok.
  destruct (file_write w _ data) as [[] | e]; simpl;
    intros [<- | [<- | [<- | []]]]; auto; right; right; now exists data.
Qed.

(** X19: the handler writes to the volume only when the validated payload
    carries a string [init_image], and then only this: it creates the
    input directory, opens [init.png] there and writes the decoded bytes
    of that string to it.  It never writes any other file. *)
Theorem handler_writes_only_the_init_image
        (w : World) (fuel : nat) (event : json) (ev : effect) :
  In ev (fst (handler w fuel event)) ->
  touches_input_dir ev = true ->
  exists payload workflow base64_str,
    valid_input w event payload workflow /\
    py_getitem payload (JStr "init_image") = Ok (JStr base64_str) /\
    (ev = Makedirs "/runpod-volume/ComfyUI/input" \/
     ev = OpenWrite INIT_IMAGE_PATH \/
     exists data,
       b64decode w base64_str = Ok data /\ ev = WriteBytes INIT_IMAGE_PATH data).
Proof.
  rewrite handler_trace. intros Hin Hev.
  destruct (handler_body_front w fuel event) as [[m H] | [[e H] | (pl & wf & Hv)]];
    try (rewrite H in Hin; contradiction).
  rewrite (handler_body_valid w fuel event pl wf Hv) in Hin.
  assert (Happ : In ev (fst (apply_init_image w pl wf))).
  { destruct (apply_init_image w pl wf) as [t1 [wf' | e | ]]; try exact Hin.
    rewrite bind_pair in Hin. simpl in Hin.
    apply in_app_or in Hin as [Hin | Hin]; [exact Hin |].
    destruct (run_workflow_trace w fuel wf') as (t & Ht & Hf). rewrite Ht in Hin.
    destruct Hin as [<- | Hin]; [discriminate |].
    rewrite Forall_forall in Hf. destruct (Hf ev Hin) as [Hp | Hp];
      destruct ev; discriminate. }
  clear Hin. unfold apply_init_image in Happ.
  destruct (py_contains "init_image" pl) as [[] | e]; try contradiction.
  rewrite bind_lift_ok in Happ.
  destruct (py_getitem pl (JStr "init_image")) as [v | e] eqn:Hg; try contradiction.
  rewrite bind_lift_ok in Happ.
  destruct v; try contradiction.
  exists pl, wf, s. split; [exact Hv | split; [exact Hg |]].
  apply (save_init_image_effects w s ev).
  destruct (save_init_image w s "init.png") as [ts [p | e | ]]; try exact Happ.
  rewrite bind_pair in Happ. cbv beta in Happ. simpl fst in *.
  apply in_app_or in Happ as [Happ | Happ]; [exact Happ |].
  destruct (py_items wf) as [nodes | e]; [| contradiction].
  rewrite bind_lift_ok in Happ.
  destruct (patch_first_loadimage p nodes); contradiction.
Qed.

Lemma handler_writes_only_the_init_image_witness :
  exists payload workflow base64_str,
    valid_input ready_world (image_event two_loaders_workflow) payload workflow /\
    py_getitem payload (JStr "init_image") = Ok (JStr base64_str) /\
    (WriteBytes INIT_IMAGE_PATH PNG_MAGIC = Makedirs "/runpod-volume/ComfyUI/input" \/
     WriteBytes INIT_IMAGE_PATH PNG_MAGIC = OpenWrite INIT_IMAGE_PATH \/
     exists data,
       b64decode ready_world base64_str = Ok data /\
       WriteBytes INIT_IMAGE_PATH PNG_MAGIC = WriteBytes INIT_IMAGE_PATH data).
Proof.
  apply (handler_writes_only_the_init_image
           ready_world 5 (image_event two_loaders_workflow)
           (WriteBytes INIT_IMAGE_PATH PNG_MAGIC)).
  - vm_compute. right. right. left. reflexivity.
  - reflexivity.
Defined.
